(** * VariationUtil: the VCF import pipeline of [VCFToVariation.py]

    A shallow embedding of [lib/VariationUtil/Util/VCFToVariation.py] and the
    properties of its validation-and-aggregation pipeline.

    Conventions of the embedding:
    - a Python [str] is a [string]; identifiers and file contents are ASCII
      text, and the character functions below leave code points above 127
      alone;
    - a Python [int] is a [Z];
    - a Python [dict] whose order is observed ([contigs]) is an ordered
      association list with unique keys; a [dict] that is only looked up
      ([params]) is a [gmap];
    - an exception is a value of [exn], and a method of the class is a
      computation in the monad [M] over the state of the object and of the
      world around it (files, trace of external calls). *)

From Stdlib Require Import ZArith QArith Ascii String.
From stdpp Require Import base tactics option list strings gmap.

Local Open Scope Z_scope.

(** ** Python strings *)

Module Py.

Definition chars (s : string) : list ascii := list_ascii_of_string s.
Definition str (l : list ascii) : string := string_of_list_ascii l.

Definition code (c : ascii) : N := N_of_ascii c.

(** [str.upper] on ASCII letters. *)
Definition upper_char (c : ascii) : ascii :=
  if ((97 <=? code c) && (code c <=? 122))%N
  then ascii_of_N (code c - 32) else c.

Definition upper (s : string) : string := str (upper_char <$> chars s).

(** The characters [str.strip] and [str.rstrip] remove when called
    without argument: the ASCII characters for which [str.isspace] holds. *)
Definition is_space (c : ascii) : bool :=
  ((9 <=? code c) && (code c <=? 13) || (28 <=? code c) && (code c <=? 32))%N.

Fixpoint drop_while {A} (p : A → bool) (l : list A) : list A :=
  match l with
  | [] => []
  | x :: r => if p x then drop_while p r else l
  end.

Definition lstrip_with (p : ascii → bool) (l : list ascii) : list ascii :=
  drop_while p l.
Definition rstrip_with (p : ascii → bool) (l : list ascii) : list ascii :=
  reverse (drop_while p (reverse l)).
Definition strip_with (p : ascii → bool) (l : list ascii) : list ascii :=
  rstrip_with p (lstrip_with p l).

Definition strip (s : string) : string := str (strip_with is_space (chars s)).
Definition rstrip (s : string) : string := str (rstrip_with is_space (chars s)).

(** [s.strip(c)] for a one-character argument. *)
Definition strip_char (c : ascii) (s : string) : string :=
  str (strip_with (λ x, bool_decide (x = c)) (chars s)).

Fixpoint is_prefix (p l : list ascii) : bool :=
  match p, l with
  | [], _ => true
  | _ :: _, [] => false
  | a :: p', b :: l' => bool_decide (a = b) && is_prefix p' l'
  end.

Definition startswith (s p : string) : bool := is_prefix (chars p) (chars s).
Definition endswith (s p : string) : bool :=
  is_prefix (reverse (chars p)) (reverse (chars s)).

(** [s.split(c)] for a one-character separator: never empty, keeps empty
    fields. *)
Fixpoint split_go (c : ascii) (cur : list ascii) (l : list ascii) : list string :=
  match l with
  | [] => [str (reverse cur)]
  | x :: r =>
      if bool_decide (x = c) then str (reverse cur) :: split_go c [] r
      else split_go c (x :: cur) r
  end.
Definition split (c : ascii) (s : string) : list string := split_go c [] (chars s).

(** Slices [s[i:j]], [s[:j]], [s[-n:]] and [s[:-n]] for non-negative
    [i], [j], [n]; Python clamps them to the length. *)
Definition slice (i j : nat) (s : string) : string :=
  str (take (j - i) (drop i (chars s))).
Definition slice_to (j : nat) (s : string) : string := str (take j (chars s)).
Definition slice_last (n : nat) (s : string) : string :=
  str (drop (length (chars s) - n) (chars s)).
Definition slice_but_last (n : nat) (s : string) : string :=
  str (take (length (chars s) - n) (chars s)).

(** [sep.join(l)] *)
Fixpoint join (sep : string) (l : list string) : string :=
  match l with
  | [] => ""
  | [x] => x
  | x :: r => x +:+ sep +:+ join sep r
  end.

End Py.

(** ** Cross-validation of identifiers (lines 96-123) *)

(** Both checks return [True] or the list of the identifiers not found. *)
Inductive chk_result :=
  | AllResolved
  | Unresolved (ids : list string).

Definition chk_of_list (not_found : list string) : chk_result :=
  match not_found with
  | [] => AllResolved
  | _ :: _ => Unresolved not_found
  end.

Definition reported (r : chk_result) : list string :=
  match r with
  | AllResolved => []
  | Unresolved ids => ids
  end.

(** The loop [for x in xs: if x not in ref: out.append(x)]. *)
Definition not_in (xs ref : list string) : list string :=
  filter (λ x, x ∉ ref) xs.

Definition normalise (x : string) : string := Py.strip (Py.upper x).

Definition _validate_vcf_to_sample (vcf_genotypes sample_ids : list string) : chk_result :=
  let vgenotypes := normalise <$> vcf_genotypes in
  let sids := normalise <$> sample_ids in
  chk_of_list (not_in vgenotypes sids).

(** ** Exceptions and results *)

Inductive exn :=
  | ValueError (msg : string)
  | IndexError
  | KeyError (key : string)
  | TypeError
  | AttributeError
  | OSError (msg : string)
  | SystemError (msg : string)
  | ServiceError (msg : string).

Inductive result (A : Type) :=
  | Ok (a : A)
  | Raise (e : exn).
Arguments Ok {A} a.
Arguments Raise {A} e.

Global Instance result_ret : MRet result := λ A a, Ok a.
Global Instance result_bind : MBind result := λ A B f r,
  match r with
  | Ok a => f a
  | Raise e => Raise e
  end.

Definition is_raise {A} (r : result A) : bool :=
  match r with
  | Ok _ => false
  | Raise _ => true
  end.

(** [l[i]] on a list. *)
Definition index {A} (l : list A) (i : nat) : result A :=
  match l !! i with
  | Some x => Ok x
  | None => Raise IndexError
  end.

(** ** Floats read from short decimal texts

    [float(s)] yields the double nearest to the decimal that [s] denotes.
    The texts this program converts have at most four characters, where the
    nearest double is a strictly increasing function of the decimal, so the
    embedding keeps the decimal itself (a reduced fraction) and compares
    decimals. *)

Inductive pyfloat :=
  | Fin (q : Q)
  | Inf (negative : bool)
  | NaN.

Definition float_ge (a b : pyfloat) : bool :=
  match a, b with
  | NaN, _ | _, NaN => false
  | Fin x, Fin y => Qle_bool y x
  | Inf n, Fin _ => negb n
  | Fin _, Inf n => n
  | Inf n, Inf m => negb n || m
  end.

Module Float.

Definition digit_of (c : ascii) : option Z :=
  if ((48 <=? Py.code c) && (Py.code c <=? 57))%N
  then Some (Z.of_N (Py.code c) - 48) else None.

Definition is_digit (c : ascii) : bool := bool_decide (is_Some (digit_of c)).

(** An underscore is accepted between two digits only, and is dropped.
    [prev] is the character before the current one. *)
Fixpoint drop_underscores (prev : option ascii) (l : list ascii) : option (list ascii) :=
  match l with
  | [] => if bool_decide (prev = Some "_"%char) then None else Some []
  | c :: r =>
      if bool_decide (c = "_"%char) then
        if from_option is_digit false prev then drop_underscores (Some c) r else None
      else if bool_decide (prev = Some "_"%char) && negb (is_digit c) then None
      else cons c <$> drop_underscores (Some c) r
  end.

Fixpoint digits (l : list ascii) : list Z * list ascii :=
  match l with
  | [] => ([], [])
  | c :: r =>
      match digit_of c with
      | Some d => let '(ds, rest) := digits r in (d :: ds, rest)
      | None => ([], l)
      end
  end.

Definition number (ds : list Z) : Z := foldl (λ acc d, 10 * acc + d) 0 ds.

Definition sign (l : list ascii) : bool * list ascii :=
  match l with
  | "-"%char :: r => (true, r)
  | "+"%char :: r => (false, r)
  | _ => (false, l)
  end.

(** [m * 10^e] as a reduced fraction. *)
Definition scale (m e : Z) : Q :=
  Qred (if (0 <=? e)%Z then inject_Z (m * 10 ^ e) else m # Z.to_pos (10 ^ (- e))).

(** The exponent part: [e] or [E], an optional sign and at least one
    digit; when it is absent or incomplete nothing is consumed. *)
Definition exponent (l : list ascii) : Z * list ascii :=
  match l with
  | c :: r =>
      if bool_decide (c = "e"%char) || bool_decide (c = "E"%char) then
        let '(neg, r1) := sign r in
        match digits r1 with
        | ([], _) => (0, l)
        | (ds, rest) => ((if neg then - number ds else number ds), rest)
        end
      else (0, l)
  | [] => (0, l)
  end.

Definition decimal (l : list ascii) : option Q :=
  let '(ip, r1) := digits l in
  let '(fp, r2) :=
    match r1 with
    | "."%char :: r => digits r
    | _ => ([], r1)
    end in
  match ip, fp with
  | [], [] => None
  | _, _ =>
      match exponent r2 with
      | (e, []) => Some (scale (number (ip ++ fp)) (e - Z.of_nat (length fp)))
      | _ => None
      end
  end.

Definition lower_char (c : ascii) : ascii :=
  if ((65 <=? Py.code c) && (Py.code c <=? 90))%N
  then ascii_of_N (Py.code c + 32) else c.

Definition parse (s : string) : option pyfloat :=
  l ← drop_underscores None (Py.strip_with Py.is_space (Py.chars s));
  let '(neg, r) := sign l in
  let word := Py.str (lower_char <$> r) in
  if bool_decide (word = "inf") || bool_decide (word = "infinity") then Some (Inf neg)
  else if bool_decide (word = "nan") then Some NaN
  else q ← decimal r; Some (Fin (if neg then Qred (- q) else q)).

End Float.

(** [float(s)]; the message of the error, which quotes [s], is abridged. *)
Definition float (s : string) : result pyfloat :=
  match Float.parse s with
  | Some x => Ok x
  | None => Raise (ValueError "could not convert string to float")
  end.

(** ** Data model *)

(** An insertion-ordered [dict] with string keys: assigning to a key that is
    present replaces its value in place, assigning to a new key appends. *)
Module Dict.

Definition t (V : Type) : Type := list (string * V).

Fixpoint get {V} (k : string) (d : t V) : option V :=
  match d with
  | [] => None
  | (k', v) :: r => if decide (k = k') then Some v else get k r
  end.

Fixpoint set {V} (k : string) (v : V) (d : t V) : t V :=
  match d with
  | [] => [(k, v)]
  | (k', v') :: r => if decide (k = k') then (k, v) :: r else (k', v') :: set k v r
  end.

Definition keys {V} (d : t V) : list string := d.*1.
Definition values {V} (d : t V) : list V := d.*2.

End Dict.

(** The [contig_info] structure of the type spec (lines 74-79, 352-357). *)
Module Contig.
Record t := mk {
  contig_id : string;
  totalvariants : Z;
  passvariants : Z;
  length : Z
}.
End Contig.

(** What the pipeline reads of a PyVCF record. [FILTER] is [None] when the
    column is missing, [[]] when it is PASS, and the list of the failed
    filters otherwise. *)
Record vcf_record := {
  CHROM : string;
  FILTER : option (list string);
  affected_start : Z;
  affected_end : Z
}.

(** [not record.FILTER] *)
Definition not_FILTER (record : vcf_record) : bool :=
  match FILTER record with
  | None | Some [] => true
  | Some (_ :: _) => false
  end.

(** What the pipeline reads of a PyVCF reader. *)
Record vcf_reader := {
  metadata : gmap string string;
  samples : list string;
  records : list vcf_record
}.

(** The [vcf_info] dictionary (lines 85-92); [assembly_ref] is added by
    [_validate_assembly_ids]. *)
Module Info.
Record t := mk {
  version : pyfloat;
  contigs : Dict.t Contig.t;
  total_variants : Z;
  genotype_ids : list string;
  chromosome_ids : list string;
  file_ref : string;
  assembly_ref : option string
}.
End Info.

(** ** Aggregation of the records (lines 62-83) *)

Module Loop.

(** The local variables the loop updates. *)
Record locals := mk {
  totalvars : Z;
  chromosomes : list string;
  contigs : Dict.t Contig.t
}.

Definition init : locals := mk 0 [] [].

(** Lines 74-79: the entry of a contig at its first record. *)
Definition first_entry (record : vcf_record) : Contig.t :=
  Contig.mk (CHROM record) 1 (if not_FILTER record then 1 else 0)
            (affected_end record - affected_start record).

(** Line 81: [contigs[record.CHROM]['totalvariants'] += 1] *)
Definition add_total (c : Contig.t) : Contig.t :=
  Contig.mk (Contig.contig_id c) (Contig.totalvariants c + 1)
            (Contig.passvariants c) (Contig.length c).

(** Lines 82-83: [if not record.FILTER: ...['passvariants'] += 1] *)
Definition add_pass (record : vcf_record) (c : Contig.t) : Contig.t :=
  if not_FILTER record
  then Contig.mk (Contig.contig_id c) (Contig.totalvariants c)
                 (Contig.passvariants c + 1) (Contig.length c)
  else c.

(** The dictionary between line 81 and line 82, when the contig is known. *)
Definition contigs_mid (record : vcf_record) (d : Dict.t Contig.t) : Dict.t Contig.t :=
  match Dict.get (CHROM record) d with
  | None => d
  | Some c => Dict.set (CHROM record) (add_total c) d
  end.

(** Lines 71-83 *)
Definition contigs_step (record : vcf_record) (d : Dict.t Contig.t) : Dict.t Contig.t :=
  match Dict.get (CHROM record) d with
  | None => Dict.set (CHROM record) (first_entry record) d
  | Some c => Dict.set (CHROM record) (add_pass record (add_total c)) d
  end.

(** One iteration, lines 67-83. *)
Definition body (st : locals) (record : vcf_record) : locals :=
  mk (totalvars st + 1)
     (if bool_decide (CHROM record ∈ chromosomes st) then chromosomes st
      else chromosomes st ++ [CHROM record])
     (contigs_step record (contigs st)).

Definition run (rs : list vcf_record) : locals := foldl body init rs.

End Loop.

(** Line 60: [float(reader.metadata['fileformat'][4:6])] *)
Definition reader_version (reader : vcf_reader) : result pyfloat :=
  match metadata reader !! "fileformat" with
  | None => Raise (KeyError "fileformat")
  | Some ff => float (Py.slice 4 6 ff)
  end.

(** Lines 60-94, once the file is staged and opened by the reader. *)
Definition parse_reader (reader : vcf_reader) (vcf_filepath : string) : result Info.t :=
  version ← reader_version reader;
  let st := Loop.run (records reader) in
  mret (Info.mk version (Loop.contigs st) (Loop.totalvars st) (samples reader)
                (Loop.chromosomes st) vcf_filepath None).

(** ** The object and the world around it *)

Definition nl : string := String "010"%char "".

(** The handle and the reply of the blob storage ([dfu.file_to_shock]). *)
Record handle := {
  hid : string;
  remote_md5 : string
}.

Record shock_reply := {
  shock_id : option string;
  shock_handle : handle
}.

(** [not reply['shock_id']]: the identifier is [None] or empty. *)
Definition no_shock_id (reply : shock_reply) : bool :=
  match shock_id reply with
  | None | Some "" => true
  | Some _ => false
  end.

(** The [variation_obj] dictionary (lines 419-429). *)
Module Var.
Record t := mk {
  numgenotypes : Z;
  numvariants : Z;
  contigs : list Contig.t;
  population : string;
  genome_ref : string;
  assemby_ref : string;
  vcf_handle_ref : string;
  vcf_handle : handle
}.
End Var.

(** What [dfu.save_objects(...)[0]] returns. *)
Definition object_info : Type := list string.

(** The pieces of a printed line that are not strings already. *)
Inductive piece :=
  | Str (s : string)
  | Flt (x : pyfloat)
  | Int (n : Z)
  | Lst (l : list string).

(** The calls that leave the process, in the order they are made. [EvLog] is
    [log], which prints the message behind a time stamp. *)
Inductive event :=
  | EvPrint (msg : list piece)
  | EvLog (msg : list piece)
  | EvMkdir (path : string)
  | EvPopen (cmd : list string) (cwd : string)
  | EvGetObjectSubset (included ref : string)
  | EvUnpackFile (path : string)
  | EvFileToShock (path : string)
  | EvWsNameToId (name : string)
  | EvSaveObjects (id : Z) (name : string) (data : Var.t).

(** The collaborators are functions of what they are sent and of the files
    they can see. The file system is a map from paths to contents;
    directories are not tracked, and a path under the scratch area can
    always be written. *)
Record env := {
  scratch : string;                 (* config['scratch'] *)
  uuid4 : nat → string;             (* the n-th value of str(uuid.uuid4()) *)
  gunzip : string → result string;  (* reading through gzip.open *)
  gzip_compress : string → string;  (* writing through gzip.open *)
  md5_hex : string → string;        (* hashlib.md5(...).hexdigest() *)
  Reader : string → result vcf_reader;          (* vcf.Reader on a text *)
  run_validator :                                (* output lines, files, return code *)
    list string → gmap string string → list string * gmap string string * Z;
  unpack_file : string → gmap string string → result (string * gmap string string);
  ws_assembly_ref : string → result string;      (* subset /assembly_ref of a genome *)
  ws_contigs : string → result (list string);    (* keys of subset /contigs *)
  ws_instances : string → result (list string);  (* keys of subset /instances *)
  file_to_shock : string → option string → result shock_reply;
  ws_name_to_id : string → result Z;
  save_objects : Z → string → Var.t → result object_info
}.

Record state := mk_state {
  files : gmap string string;
  trace : list event;
  vcf_info : option Info.t;         (* self.vcf_info *)
  original_file : option string;    (* self.original_file *)
  uuids : nat                       (* calls of uuid4 so far *)
}.

(** A method: from a state to a value or an exception, and the state at that
    point. *)
Definition M (A : Type) : Type := state → result A * state.

Global Instance M_ret : MRet M := λ A a s, (Ok a, s).
Global Instance M_bind : MBind M := λ A B f m s,
  match m s with
  | (Ok a, s') => f a s'
  | (Raise e, s') => (Raise e, s')
  end.

Definition raise {A} (e : exn) : M A := λ s, (Raise e, s).
Definition lift {A} (r : result A) : M A := λ s, (r, s).

Definition emit (ev : event) : M unit := λ s,
  (Ok (), mk_state (files s) (trace s ++ [ev]) (vcf_info s) (original_file s) (uuids s)).
Definition print (msg : list piece) : M unit := emit (EvPrint msg).
Definition log (msg : list piece) : M unit := emit (EvLog msg).

Definition get_files : M (gmap string string) := λ s, (Ok (files s), s).
Definition set_files (fs : gmap string string) : M unit := λ s,
  (Ok (), mk_state fs (trace s) (vcf_info s) (original_file s) (uuids s)).
Definition set_vcf_info (i : Info.t) : M unit := λ s,
  (Ok (), mk_state (files s) (trace s) (Some i) (original_file s) (uuids s)).
Definition set_original_file (p : string) : M unit := λ s,
  (Ok (), mk_state (files s) (trace s) (vcf_info s) (Some p) (uuids s)).

(** [self.vcf_info] and [self.original_file] *)
Definition get_vcf_info : M Info.t := λ s,
  (match vcf_info s with Some i => Ok i | None => Raise AttributeError end, s).
Definition get_original_file : M string := λ s,
  (match original_file s with Some p => Ok p | None => Raise AttributeError end, s).

(** [params[key]] *)
Definition getitem (params : gmap string string) (key : string) : M string :=
  lift (match params !! key with Some v => Ok v | None => Raise (KeyError key) end).

(** [str + value]: only a string can be added to a string. *)
Inductive pyvalue :=
  | PStr (s : string)
  | PDict (d : gmap string string).

Definition str_add (s : string) (v : pyvalue) : result string :=
  match v with
  | PStr s' => Ok (s +:+ s')
  | PDict _ => Raise TypeError
  end.

(** *** Files *)

Definition read_file (path : string) : M string :=
  fs ← get_files;
  match fs !! path with
  | Some c => mret c
  | None => raise (OSError "No such file or directory")
  end.

Definition write_file (path content : string) : M unit :=
  fs ← get_files; set_files (<[path := content]> fs).

(** [os.path.exists] *)
Definition exists_ (path : string) : M bool :=
  fs ← get_files; mret (bool_decide (is_Some (fs !! path))).

(** [os.path.join] of two components and [os.path.basename] *)
Definition path_join (a b : string) : string :=
  if Py.startswith b "/" then b
  else if bool_decide (a = "") || Py.endswith a "/" then a +:+ b
  else a +:+ "/" +:+ b.

Definition basename (p : string) : string := List.last (Py.split "/" p) "".

(** [shutil.copy(src, dst)] to a path that is not a directory *)
Definition copy (src dst : string) : M string :=
  c ← read_file src;
  if bool_decide (src = dst) then raise (OSError "are the same file")
  else write_file dst c ;; mret dst.

(** Lines 24-26 *)
Definition is_gz_file (filepath : string) : M bool :=
  c ← read_file filepath;
  mret (bool_decide (take 2 (Py.chars c) = ["031"%char; "139"%char])).

(** Lines 29-34 *)
Definition md5_sum_local_file (E : env) (fname : string) : M string :=
  c ← read_file fname; mret (md5_hex E c).

(** Lines 37-43 *)
Definition gzip_file (E : env) (path : string) : M string :=
  let gzip_path := path +:+ ".gz" in
  c ← read_file path;
  write_file gzip_path (gzip_compress E c) ;;
  mret gzip_path.

(** [f.readline()] at the start of a text opened with universal newlines *)
Fixpoint readline_go (l : list ascii) : list ascii :=
  match l with
  | [] => []
  | c :: r =>
      if bool_decide (c = "010"%char) || bool_decide (c = "013"%char)
      then ["010"%char]
      else c :: readline_go r
  end.
Definition readline (text : string) : string := Py.str (readline_go (Py.chars text)).

(** ** The methods of [VCFToVariation] *)

Section Methods.

Variable E : env.

Definition fresh_uuid : M string := λ s,
  (Ok (uuid4 E (uuids s)),
   mk_state (files s) (trace s) (vcf_info s) (original_file s) (Datatypes.S (uuids s))).

(** Lines 254-289. When the archive of a test fixture cannot be read
    through, the output file has been created; what it holds then is not
    modelled (left empty). *)
Definition _stage_input (params : gmap string string) : M string :=
  p ← getitem params "vcf_staging_file_path";
  vcf_local_file_path ←
    (if Py.startswith p "/kb/module/test/" then
       if Py.endswith p ".gz" then
         gz ← read_file p;
         write_file (Py.slice_but_last 3 p) "" ;;
         data ← lift (gunzip E gz);
         write_file (Py.slice_but_last 3 p) data ;;
         mret (Py.slice_but_last 3 p)
       else mret p
     else mret (path_join "/staging" p));
  ex ← exists_ vcf_local_file_path;
  if negb ex then raise (OSError "VCF input path does not exist, or is not readable")
  else
    let orig_file_path :=
      path_join (scratch E) ("original_" +:+ basename vcf_local_file_path) in
    print [Str ("VCF: " +:+ vcf_local_file_path +:+ " Orig: " +:+ orig_file_path)] ;;
    o ← copy vcf_local_file_path orig_file_path;
    set_original_file o ;;
    gz ← is_gz_file vcf_local_file_path;
    if (gz : bool) then
      if negb (bool_decide (vcf_local_file_path = path_join (scratch E) p)) then
        copy_ ← copy vcf_local_file_path (path_join (scratch E) p);
        emit (EvUnpackFile copy_) ;;
        fs ← get_files;
        '(file_path, fs') ← lift (unpack_file E copy_ fs);
        set_files fs' ;;
        mret file_path
      else mret (path_join (scratch E) p)
    else mret vcf_local_file_path.

(** Lines 128-137, on the line read. *)
Definition version_of_line (line : string) : M pyfloat :=
  let tokens := Py.split "=" line in
  t0 ← lift (index tokens 0);
  if negb (Py.startswith t0 "##fileformat") then
    log [Str "Invalid VCF.  ##fileformat line in meta is improperly formatted."] ;;
    raise (ValueError ("Invalid VCF.  ##fileformat line in meta is improperly formatted. "
                       +:+ "Check VCF file specifications: https://samtools.github.io/hts-specs/"))
  else
    t1 ← lift (index tokens 1);
    lift (float (Py.rstrip (Py.slice_last 4 t1))).

(** Lines 125-137 *)
Definition _get_vcf_version (vcf_filepath : string) : M pyfloat :=
  gz ← is_gz_file vcf_filepath;
  c ← read_file vcf_filepath;
  text ← (if (gz : bool) then lift (gunzip E c) else mret c);
  version_of_line (readline text).

(** The error of lines 176-178. *)
Definition version_error : exn :=
  ValueError
    ("VCF Version not in file, or fileformat line malformatted, or not version >=4.0. "
     +:+ "file format line must be the first line of vcf file and in appropriate syntax. "
     +:+ "Check VCF file specifications: https://samtools.github.io/hts-specs/").

(** Lines 162-178: the command of the validator for a version. *)
Definition validator_cmd_for (vcf_version : pyfloat) (vcf_filepath : string)
    : M (list string) :=
  if float_ge vcf_version (Fin (41 # 10)) then
    print [Str "Using vcf_validator_linux..."] ;;
    print [Str "VCF version "; Flt vcf_version; Str "."] ;;
    mret ["vcf_validator_linux"; "-i"; vcf_filepath; "-l"; "error"]
  else if float_ge vcf_version (Fin (4 # 1)) then
    print [Str "Using vcftools to validate..."] ;;
    print [Str "VCF version 4.0."] ;;
    mret ["vcf-validator"; vcf_filepath]
  else raise version_error.

(** Lines 182-196: the process runs in the scratch area; its lines are
    read until the first empty read, and those that start with [[info]]
    once stripped are kept. *)
Fixpoint read_lines (out : list string) : list string :=
  match out with
  | [] => []
  | line :: r => if bool_decide (line = "") then [] else line :: read_lines r
  end.

Definition retained (out : list string) : list string :=
  filter (λ line, Py.startswith (Py.strip line) "[info]" = true) (read_lines out).

Definition popen (cmd : list string) : M (list string * Z) :=
  emit (EvPopen cmd (scratch E)) ;;
  fs ← get_files;
  let '(out, fs', returncode) := run_validator E cmd fs in
  set_files fs' ;;
  mret (retained out, returncode).

(** The report of lines 226 and 241. *)
Definition success_note (vcf_filepath : string) : string :=
  "vcftools used to validate vcf file:" +:+ nl +:+ vcf_filepath +:+ nl
  +:+ "\File is validate as of vcf spec v4.0".

(** Lines 217-227 and, word for word, lines 232-242. *)
Definition report_vcftools (validator_output : list string)
    (validation_output_filename vcf_filepath : string) : M string :=
  match validator_output with
  | _ :: _ =>
      write_file validation_output_filename (Py.join "" validator_output) ;;
      print [Str (Py.join nl validator_output)] ;;
      raise (ValueError (Py.join nl validator_output))
  | [] =>
      write_file validation_output_filename (success_note vcf_filepath) ;;
      mret validation_output_filename
  end.

(** Lines 201-242. An [IndexError] of the [try] block runs the handler with
    the file name as it is at that point. *)
Definition interpret (validator_output : list string)
    (validation_output_filename vcf_filepath : string) : M string :=
  match index validator_output 0 with
  | Raise _ => report_vcftools validator_output validation_output_filename vcf_filepath
  | Ok line0 =>
      if bool_decide (Py.slice_to 6 line0 = "[info]") then
        match line1 ← index validator_output 1; index (Py.split " " line1) 6 with
        | Raise _ =>
            report_vcftools validator_output validation_output_filename vcf_filepath
        | Ok tok =>
            let validation_output_filename := Py.strip_char "010" tok in
            match index validator_output 2 with
            | Raise _ =>
                report_vcftools validator_output validation_output_filename vcf_filepath
            | Ok line2 =>
                let vo := Py.split " " line2 in
                let file_output_chk := Py.strip_char "010" (Py.join "" (drop 9 vo)) in
                ex ← exists_ validation_output_filename;
                if negb ex then
                  raise (ValueError (validation_output_filename +:+ " does not exist!"))
                else if negb (bool_decide (file_output_chk = "isvalid")) then
                  print [Str (Py.join nl validator_output)] ;;
                  raise (ValueError (Py.join nl validator_output))
                else mret validation_output_filename
            end
        end
      else report_vcftools validator_output validation_output_filename vcf_filepath
  end.

(** Lines 150-252, once the file is staged and its version is read. *)
Definition validate_staged (vcf_filepath : string) (vcf_version : pyfloat) : M string :=
  u ← fresh_uuid;
  let validation_output_dir := path_join (scratch E) ("validation_" +:+ u) in
  emit (EvMkdir validation_output_dir) ;;
  validator_cmd ← validator_cmd_for vcf_version vcf_filepath;
  print [Str "Validator command: "; Lst validator_cmd] ;;
  '(validator_output, returncode) ← popen validator_cmd;
  let validation_output_filename := path_join validation_output_dir "vcf_validation.txt" in
  validation_output_filename ←
    interpret validator_output validation_output_filename vcf_filepath;
  ex ← exists_ validation_output_filename;
  if negb ex then
    print [Str "Validator did not generate log file!"] ;;
    raise (SystemError "Validator did not generate a log file.")
  else
    log [Str "Validator output filepath: "; Str validation_output_filename] ;;
    log [Str "Return code from validator "; Int returncode] ;;
    mret validation_output_filename.

(** Lines 139-252 *)
Definition validate_vcf (params : gmap string string) : M string :=
  (if negb (bool_decide ("genome_ref" ∈ dom params)) then
     msg ← lift (str_add ("Genome reference not in input parameters: " +:+ nl +:+ nl)
                         (PDict params));
     raise (ValueError msg)
   else mret ()) ;;
  (if negb (bool_decide ("vcf_staging_file_path" ∈ dom params)) then
     msg ← lift (str_add ("VCF staging file path not in input parameters: " +:+ nl +:+ nl)
                         (PDict params));
     raise (ValueError msg)
   else mret ()) ;;
  vcf_filepath ← _stage_input params;
  vcf_version ← _get_vcf_version vcf_filepath;
  validate_staged vcf_filepath vcf_version.

(** Lines 54-94. The reader is handed the text of the staged file. *)
Definition _parse_vcf_data (params : gmap string string) : M Info.t :=
  vcf_filepath ← _stage_input params;
  text ← read_file vcf_filepath;
  reader ← lift (Reader E text);
  lift (parse_reader reader vcf_filepath).

(** Lines 111-123; line 114 prints the assembly identifiers. *)
Definition _chk_if_vcf_ids_in_assembly
    (vcf_chromosomes assembly_chromosomes : list string) : M chk_result :=
  print [Lst assembly_chromosomes] ;;
  mret (chk_of_list (not_in vcf_chromosomes assembly_chromosomes)).

(** Lines 291-318 *)
Definition _validate_assembly_ids (params : gmap string string) : M (list string) :=
  genome_ref ← getitem params "genome_ref";
  emit (EvGetObjectSubset "/assembly_ref" genome_ref) ;;
  aref ← lift (ws_assembly_ref E genome_ref);
  i ← get_vcf_info;
  set_vcf_info (Info.mk (Info.version i) (Info.contigs i) (Info.total_variants i)
                        (Info.genotype_ids i) (Info.chromosome_ids i) (Info.file_ref i)
                        (Some aref)) ;;
  emit (EvGetObjectSubset "/contigs" aref) ;;
  assembly_chromosomes ← lift (ws_contigs E aref);
  let vcf_chromosomes := Info.chromosome_ids i in
  chk_assembly_ids ← _chk_if_vcf_ids_in_assembly vcf_chromosomes assembly_chromosomes;
  match chk_assembly_ids with
  | Unresolved ids =>
      let failed_ids := Py.join " " ids in
      print [Str ("VCF contig ids: " +:+ failed_ids +:+ " are not present in assembly.")]
  | AllResolved => mret ()
  end ;;
  mret assembly_chromosomes.

(** Lines 320-338 *)
Definition _validate_sample_ids (params : gmap string string) : M (list string) :=
  i ← get_vcf_info;
  let vcf_genotypes := Info.genotype_ids i in
  sample_attribute_ref ← getitem params "sample_attribute_ref";
  emit (EvGetObjectSubset "/instances" sample_attribute_ref) ;;
  sample_ids ← lift (ws_instances E sample_attribute_ref);
  let validate_genotypes := _validate_vcf_to_sample vcf_genotypes sample_ids in
  match validate_genotypes with
  | Unresolved ids =>
      let failed_genos := Py.join " " ids in
      print [Str ("VCF genotypes: " +:+ failed_genos
                  +:+ " are not present in sample attribute mapping.")]
  | AllResolved => mret ()
  end ;;
  mret sample_ids.

(** Lines 340-366: the entries of [contigs], looked up key by key. *)
Definition _construct_contig_info (params : gmap string string) : M (list Contig.t) :=
  i ← get_vcf_info;
  let contig_infos := Info.contigs i in
  mret (omap (λ variant, Dict.get variant contig_infos) (Dict.keys contig_infos)).

Definition set_file_ref (file_ref : string) : M unit :=
  i ← get_vcf_info;
  set_vcf_info (Info.mk (Info.version i) (Info.contigs i) (Info.total_variants i)
                        (Info.genotype_ids i) (Info.chromosome_ids i) file_ref
                        (Info.assembly_ref i)).

(** Lines 413-417 *)
Definition check_upload (local_md5 : string) (vcf_shock_file_ref : shock_reply) : M unit :=
  let shock_md5 := remote_md5 (shock_handle vcf_shock_file_ref) in
  if negb (bool_decide (local_md5 = shock_md5)) then
    raise (ValueError ("Local md5 " +:+ local_md5 +:+ " does not match shock md5 "
                       +:+ shock_md5))
  else if no_shock_id vcf_shock_file_ref then
    raise (ValueError "Unable to upload VCF to Shock!")
  else mret ().

(** Lines 368-431 *)
Definition _construct_variation (params : gmap string string)
    (contigs_info : list Contig.t) : M Var.t :=
  i ← get_vcf_info;
  (if negb (Py.startswith (Info.file_ref i) (scratch E)) then
     let new_vcf_file := path_join (scratch E) (basename (Info.file_ref i)) in
     copied ← copy (Info.file_ref i) new_vcf_file;
     set_file_ref copied
   else mret ()) ;;
  i ← get_vcf_info;
  (if negb (Py.endswith (Info.file_ref i) ".gz") then
     zipped ← gzip_file E (Info.file_ref i);
     set_file_ref zipped
   else mret ()) ;;
  orig ← get_original_file;
  emit (EvFileToShock orig) ;;
  fs ← get_files;
  vcf_shock_file_ref ← lift (file_to_shock E orig (fs !! orig));
  orig ← get_original_file;
  local_md5 ← md5_sum_local_file E orig;
  check_upload local_md5 vcf_shock_file_ref ;;
  i ← get_vcf_info;
  population ← getitem params "sample_attribute_ref";
  genome_ref ← getitem params "genome_ref";
  assemby_ref ← lift (match Info.assembly_ref i with
                      | Some r => Ok r
                      | None => Raise (KeyError "assembly_ref")
                      end);
  mret (Var.mk (Z.of_nat (length (Info.genotype_ids i))) (Info.total_variants i)
               contigs_info population genome_ref assemby_ref
               (hid (shock_handle vcf_shock_file_ref)) (shock_handle vcf_shock_file_ref)).

(** Lines 433-471. [var] is [None] for a blank (falsy) object. *)
Definition _save_var_obj (params : gmap string string) (var : option Var.t)
    : M object_info :=
  print [Str ("Saving Variation to workspace..." +:+ nl)] ;;
  match var with
  | Some var =>
      var_obj_name ←
        (if negb (bool_decide ("variation_object_name" ∈ dom params)) then
           u ← fresh_uuid; mret ("variation_" +:+ u)
         else getitem params "variation_object_name");
      workspace_name ← getitem params "workspace_name";
      emit (EvWsNameToId workspace_name) ;;
      id ← lift (ws_name_to_id E workspace_name);
      emit (EvSaveObjects id var_obj_name var) ;;
      lift (save_objects E id var_obj_name var)
  | None => raise (ValueError "Variation object blank, cannot not save to workspace!")
  end.

(** Lines 473-493 *)
Definition import_vcf (params : gmap string string) : M (object_info * Var.t) :=
  file_valid_result ← validate_vcf params;
  i ← _parse_vcf_data params;
  set_vcf_info i ;;
  _validate_assembly_ids params ;;
  _validate_sample_ids params ;;
  contigs_info ← _construct_contig_info params;
  var ← _construct_variation params contigs_info;
  var_wksp_obj ← _save_var_obj params (Some var);
  mret (var_wksp_obj, var).

End Methods.

(** ** A test fixture

    One VCF file under the test-data root and collaborators that answer as
    the scenario says: what the first line declares, what the reader finds,
    what the legacy validator prints, what the workspace and the blob storage
    return. The strict validator prints its three [[info]] lines and writes
    its summary. *)
Module Fixture.

Record scenario := {
  fileformat : string;
  body : list vcf_record;
  sample_names : list string;
  legacy_output : list string;
  assembly_contigs : list string;
  instances : list string;
  remote_md5_of : string → string;
  storage_id : option string
}.

Definition vcf_path : string := "/kb/module/test/sample.vcf".
Definition summary_path : string := "/kb/module/work/tmp/sample.vcf.errors_summary.txt".

Definition text (sc : scenario) : string :=
  "##fileformat=" +:+ fileformat sc +:+ nl +:+ "#CHROM POS ID REF ALT QUAL FILTER INFO" +:+ nl.

Definition strict_output : list string :=
  [ "[info] Reading from input VCF file..." +:+ nl;
    "[info] Summary report written to : " +:+ summary_path +:+ nl;
    "[info] According to the VCF specification, the input file is valid" +:+ nl ].

Definition validator (sc : scenario) (cmd : list string) (fs : gmap string string)
    : list string * gmap string string * Z :=
  match cmd with
  | "vcf_validator_linux" :: _ => (strict_output, <[summary_path := "valid"]> fs, 0)
  | _ => (legacy_output sc, fs, 0)
  end.

(** The reader keeps what follows [=] on the first line as [fileformat]. *)
Definition reader (sc : scenario) (text : string) : result vcf_reader :=
  value ← index (Py.split "=" (readline text)) 1;
  mret {| metadata := {[ "fileformat" := Py.strip value ]};
          samples := sample_names sc;
          records := body sc |}.

Definition world (sc : scenario) : env := {|
  scratch := "/kb/module/work/tmp";
  uuid4 := λ n, "0000" +:+ Py.str (replicate n "1"%char);
  gunzip := λ _, Raise (OSError "Not a gzipped file");
  gzip_compress := λ c, String "031" (String "139" c);
  md5_hex := λ c, "md5:" +:+ c;
  Reader := reader sc;
  run_validator := validator sc;
  unpack_file := λ p fs, Ok (p, fs);
  ws_assembly_ref := λ genome, Ok (genome +:+ "/assembly");
  ws_contigs := λ _, Ok (assembly_contigs sc);
  ws_instances := λ _, Ok (instances sc);
  file_to_shock := λ p c,
    Ok {| shock_id := storage_id sc;
          shock_handle := {| hid := "KBH_1";
                             remote_md5 := remote_md5_of sc (default "" c) |} |};
  ws_name_to_id := λ _, Ok 7;
  save_objects := λ id name _, Ok [name]
|}.

Definition start (sc : scenario) : state :=
  mk_state {[ vcf_path := text sc ]} [] None None 0.

Definition params : gmap string string :=
  {[ "genome_ref" := "1/2/3";
     "vcf_staging_file_path" := vcf_path;
     "sample_attribute_ref" := "1/4/1";
     "workspace_name" := "ws" ]}.

Definition record (chrom : string) (filter : option (list string)) : vcf_record :=
  {| CHROM := chrom; FILTER := filter; affected_start := 100; affected_end := 101 |}.

(** Contigs 1 and 2 with two and three records, all with an empty FILTER. *)
Definition good (ff : string) : scenario := {|
  fileformat := ff;
  body := [record "1" None; record "1" (Some []); record "2" None;
           record "2" None; record "2" None];
  sample_names := ["Sample_X"];
  legacy_output := [];
  assembly_contigs := ["1"; "2"; "3"];
  instances := ["sample_x"];
  remote_md5_of := λ c, "md5:" +:+ c;
  storage_id := Some "shock-1"
|}.

(** The same with other answers of the collaborators. *)
Definition with_output (sc : scenario) (out : list string) : scenario := {|
  fileformat := fileformat sc; body := body sc; sample_names := sample_names sc;
  legacy_output := out;
  assembly_contigs := assembly_contigs sc; instances := instances sc;
  remote_md5_of := remote_md5_of sc; storage_id := storage_id sc
|}.

Definition with_storage (sc : scenario) (md5 : string → string) (id : option string)
    : scenario := {|
  fileformat := fileformat sc; body := body sc; sample_names := sample_names sc;
  legacy_output := legacy_output sc;
  assembly_contigs := assembly_contigs sc; instances := instances sc;
  remote_md5_of := md5; storage_id := id
|}.

Definition with_references (sc : scenario) (assembly samples : list string)
    : scenario := {|
  fileformat := fileformat sc; body := body sc; sample_names := sample_names sc;
  legacy_output := legacy_output sc;
  assembly_contigs := assembly; instances := samples;
  remote_md5_of := remote_md5_of sc; storage_id := storage_id sc
|}.

End Fixture.

(** ** Vocabulary of the properties *)

(** The sum of [totalvariants] over the entries of [contigs]. *)
Definition sum_totalvariants (d : Dict.t Contig.t) : Z :=
  foldr (λ kc acc, Contig.totalvariants kc.2 + acc) 0 d.

(** The records of a contig, and those among them with an empty [FILTER]. *)
Definition count_records (k : string) (rs : list vcf_record) : Z :=
  Z.of_nat (length (filter (λ r, CHROM r = k) rs)).
Definition count_pass (k : string) (rs : list vcf_record) : Z :=
  Z.of_nat (length (filter (λ r, CHROM r = k ∧ not_FILTER r = true) rs)).

Definition pass_le_total (kc : string * Contig.t) : Prop :=
  Contig.passvariants kc.2 ≤ Contig.totalvariants kc.2.

(** The entry of a contig counts the records [rs] exactly. *)
Definition counts (rs : list vcf_record) (kc : string * Contig.t) : Prop :=
  Contig.totalvariants kc.2 = count_records kc.1 rs ∧
  Contig.passvariants kc.2 = count_pass kc.1 rs.

(** The invariant of the loop: the keys are distinct, the entries count the
    records seen, and a contig without entry has no record. *)
Definition loop_inv (rs : list vcf_record) (d : Dict.t Contig.t) : Prop :=
  NoDup (Dict.keys d) ∧
  Forall (counts rs) d ∧
  ∀ k, Dict.get k d = None → count_records k rs = 0.

(** [a < b] on floats. *)
Definition float_lt (a b : pyfloat) : bool :=
  match a, b with
  | NaN, _ | _, NaN => false
  | Fin x, Fin y => negb (Qle_bool y x)
  | Inf n, Fin _ => n
  | Fin _, Inf n => negb n
  | Inf n, Inf m => n && negb m
  end.

(** A method [m] moves every state along the relation [R]. *)
Definition steps {A} (R : relation state) (m : M A) : Prop :=
  ∀ s, R s (m s).2.

(** The trace grows by events that satisfy [P]. *)
Definition emits_only (P : event → Prop) : relation state :=
  λ s s', ∃ evs, trace s' = trace s ++ evs ∧ Forall P evs.

(** The component [f] of the state is kept. *)
Definition keeps {B} (f : state → B) : relation state :=
  λ s s', f s' = f s.

Definition is_popen (ev : event) : Prop :=
  match ev with EvPopen _ _ => True | _ => False end.
Definition is_save (ev : event) : Prop :=
  match ev with EvSaveObjects _ _ _ => True | _ => False end.

(** The line the cross-validation prints when identifiers are unresolved
    (lines 313-316 and 333-336). *)
Definition assembly_warning (r : chk_result) : list event :=
  match r with
  | Unresolved ids =>
      [EvPrint [Str ("VCF contig ids: " +:+ Py.join " " ids
                     +:+ " are not present in assembly.")]]
  | AllResolved => []
  end.

Definition sample_warning (r : chk_result) : list event :=
  match r with
  | Unresolved ids =>
      [EvPrint [Str ("VCF genotypes: " +:+ Py.join " " ids
                     +:+ " are not present in sample attribute mapping.")]]
  | AllResolved => []
  end.

(** [vcf_info] once [assembly_ref] is set (line 301). *)
Definition with_assembly_ref (i : Info.t) (aref : string) : Info.t :=
  Info.mk (Info.version i) (Info.contigs i) (Info.total_variants i)
          (Info.genotype_ids i) (Info.chromosome_ids i) (Info.file_ref i) (Some aref).

(** What [import_vcf] does after the two checks (lines 484-493). *)
Definition construct_and_save (E : env) (params : gmap string string)
    : M (object_info * Var.t) :=
  contigs_info ← _construct_contig_info params;
  var ← _construct_variation E params contigs_info;
  var_wksp_obj ← _save_var_obj E params (Some var);
  mret (var_wksp_obj, var).

(** The reply of the blob storage for the original file, as the file is in
    state [s], does not confirm the upload: its checksum differs from the
    local md5, or it carries no identifier. *)
Definition upload_rejected (E : env) (s : state) : Prop :=
  ∃ orig reply,
    original_file s = Some orig ∧
    file_to_shock E orig (files s !! orig) = Ok reply ∧
    ((md5_hex E <$> files s !! orig) ≠ Some (remote_md5 (shock_handle reply)) ∨
     no_shock_id reply = true).

Definition not_popen (ev : event) : Prop := ¬ is_popen ev.
Definition not_save (ev : event) : Prop := ¬ is_save ev.

(** The command lines of the strict and of the legacy validator. *)
Definition strict_cmd (path : string) : list string :=
  ["vcf_validator_linux"; "-i"; path; "-l"; "error"].
Definition legacy_cmd (path : string) : list string := ["vcf-validator"; path].

(** The commands of the validators started, in order. *)
Definition validators_invoked (t : list event) : list (list string) :=
  omap (λ ev, match ev with EvPopen cmd _ => Some cmd | _ => None end) t.

(** The first record of a contig among [rs]. *)
Definition first_record (k : string) (rs : list vcf_record) : option vcf_record :=
  head (filter (λ r, CHROM r = k) rs).

(** The entry of a contig is named after it and has the span of its first
    record as [length]. *)
Definition entry_of_first (rs : list vcf_record) (kc : string * Contig.t) : Prop :=
  Contig.contig_id kc.2 = kc.1 ∧
  (λ r, affected_end r - affected_start r) <$> first_record kc.1 rs
  = Some (Contig.length kc.2).

(** The names and records handed to [save_objects], in order. *)
Definition saved (t : list event) : list (string * Var.t) :=
  omap (λ ev, match ev with
              | EvSaveObjects _ name data => Some (name, data)
              | _ => None
              end) t.


(** What of [vcf_info] the staging of the upload leaves alone (everything
    but [file_ref]). *)
Definition info_core (s : state)
    : option (Dict.t Contig.t * Z * list string * option string) :=
  (λ i, (Info.contigs i, Info.total_variants i, Info.genotype_ids i, Info.assembly_ref i))
  <$> vcf_info s.

(** The name [_save_var_obj] saves under (lines 455-458), when [n] calls of
    [uuid4] have been made. *)
Definition object_name (E : env) (params : gmap string string) (n : nat) : string :=
  match params !! "variation_object_name" with
  | Some name => name
  | None => "variation_" +:+ uuid4 E n
  end.

(** The same collaborators with another return code of the validator. *)
Definition with_returncode (E : env) (f : Z → Z) : env := {|
  scratch := scratch E; uuid4 := uuid4 E; gunzip := gunzip E;
  gzip_compress := gzip_compress E; md5_hex := md5_hex E; Reader := Reader E;
  run_validator := λ cmd fs, let '(out, fs', rc) := run_validator E cmd fs in (out, fs', f rc);
  unpack_file := unpack_file E; ws_assembly_ref := ws_assembly_ref E;
  ws_contigs := ws_contigs E; ws_instances := ws_instances E;
  file_to_shock := file_to_shock E; ws_name_to_id := ws_name_to_id E;
  save_objects := save_objects E
|}.

(** The character of a decimal digit, and the line ends a text file may use. *)
Definition digit_char (d : nat) : ascii := ascii_of_nat (48 + d).
Definition line_ends : list string :=
  [nl; String "013"%char nl; String "013"%char ""].


(** Where [_stage_input] looks for an input that is not a compressed test
    fixture (lines 256-268), and where it keeps the original (line 273). *)
Definition local_path (p : string) : string :=
  if Py.startswith p "/kb/module/test/" then p else path_join "/staging" p.
Definition original_path (E : env) (vcf_local_file_path : string) : string :=
  path_join (scratch E) ("original_" +:+ basename vcf_local_file_path).

(** A text that starts with the line [##fileformat=VCFv<d>.<m>]. *)
Definition declares (d m : nat) (eol rest : string) : string :=
  "##fileformat=VCFv" +:+ String (digit_char d) (String "." (String (digit_char m) ""))
  +:+ eol +:+ rest.

(** Two runs end with the same value or exception and the same files. *)
Definition same_outcome {A} (r r' : result A * state) : Prop :=
  r'.1 = r.1 ∧ files r'.2 = files r.2.

(** The same collaborators with a [gzip] that undoes [gzip_compress] of the
    fixture: it reads what follows the two magic bytes. *)
Definition with_gunzip (E : env) : env := {|
  scratch := scratch E; uuid4 := uuid4 E;
  gunzip := λ c, match c with
                 | String "031" (String "139" data) => Ok data
                 | _ => Raise (OSError "Not a gzipped file")
                 end;
  gzip_compress := gzip_compress E; md5_hex := md5_hex E; Reader := Reader E;
  run_validator := run_validator E;
  unpack_file := unpack_file E; ws_assembly_ref := ws_assembly_ref E;
  ws_contigs := ws_contigs E; ws_instances := ws_instances E;
  file_to_shock := file_to_shock E; ws_name_to_id := ws_name_to_id E;
  save_objects := save_objects E
|}.

(** * Properties *)

(** ** Ordered dictionaries *)

Section DictFacts.

Context {V : Type}.
Implicit Types (d : Dict.t V) (k : string) (v : V).

Lemma get_set_eq k v d : Dict.get k (Dict.set k v d) = Some v.
Proof.
  induction d as [|[k' v'] d IH]; simpl.
  - by rewrite decide_True.
  - destruct (decide (k = k')) as [->|Hne]; simpl.
    + by rewrite decide_True.
    + by rewrite decide_False.
Qed.

Lemma get_set_ne k k' v d : k ≠ k' → Dict.get k' (Dict.set k v d) = Dict.get k' d.
Proof.
  intros Hne. induction d as [|[k0 v0] d IH]; simpl.
  - by rewrite decide_False.
  - destruct (decide (k = k0)) as [->|Hk]; simpl.
    + by rewrite !decide_False.
    + destruct (decide (k' = k0)); [done | apply IH].
Qed.

Lemma get_None_keys k d : Dict.get k d = None ↔ k ∉ Dict.keys d.
Proof.
  unfold Dict.keys. induction d as [|[k' v'] d IH]; simpl.
  - split; [intros _; apply not_elem_of_nil | done].
  - rewrite not_elem_of_cons. destruct (decide (k = k')); [|tauto].
    split; [done | tauto].
Qed.

Lemma get_Some_elem k v d : Dict.get k d = Some v → (k, v) ∈ d.
Proof.
  induction d as [|[k' v'] d IH]; simpl; [done|].
  destruct (decide (k = k')) as [->|]; [intros [= ->]; left | right; auto].
Qed.

(** A new key is appended at the end. *)
Lemma set_new k v d : Dict.get k d = None → Dict.set k v d = d ++ [(k, v)].
Proof.
  induction d as [|[k' v'] d IH]; simpl; [done|].
  destruct (decide (k = k')); [done|]. intros H. by rewrite IH.
Qed.

(** A known key keeps its place. *)
Lemma keys_set_known k v d :
  is_Some (Dict.get k d) → Dict.keys (Dict.set k v d) = Dict.keys d.
Proof.
  unfold Dict.keys. induction d as [|[k' v'] d IH]; simpl.
  - by intros [? ?].
  - destruct (decide (k = k')) as [->|]; csimpl; [done|].
    intros H. f_equal. by apply IH.
Qed.

Lemma Forall_set (P Q : string * V → Prop) k v d :
  NoDup (Dict.keys d) →
  (∀ k' v', k' ≠ k → P (k', v') → Q (k', v')) →
  Q (k, v) →
  Forall P d → Forall Q (Dict.set k v d).
Proof.
  unfold Dict.keys. intros Hnd HPQ HQ.
  induction d as [|[k' v'] d IH]; simpl; intros HP.
  - by constructor.
  - apply NoDup_cons in Hnd as [Hk' Hnd]. apply Forall_cons in HP as [HP0 HP].
    destruct (decide (k = k')) as [->|Hne].
    + constructor; [done|].
      apply Forall_forall. intros [k0 v0] Hin.
      apply HPQ; [|by eapply Forall_forall in HP].
      intros ->. apply Hk'. apply list_elem_of_fmap. by exists (k', v0).
    + constructor; [by apply HPQ | by apply IH].
Qed.

End DictFacts.

(** ** The aggregation loop *)

Section LoopFacts.

Implicit Types (rs : list vcf_record) (r : vcf_record) (d : Dict.t Contig.t).

Lemma run_snoc rs r : Loop.run (rs ++ [r]) = Loop.body (Loop.run rs) r.
Proof. unfold Loop.run. by rewrite foldl_app. Qed.

(** The state after a prefix is a state the run on the whole passes through. *)
Lemma run_through rs n :
  Loop.run rs = foldl Loop.body (Loop.run (take n rs)) (drop n rs).
Proof. unfold Loop.run. by rewrite <- foldl_app, take_drop. Qed.

Lemma totalvars_run rs : Loop.totalvars (Loop.run rs) = Z.of_nat (length rs).
Proof.
  induction rs as [|r rs IH] using rev_ind; [done|].
  rewrite run_snoc, length_app. simpl. lia.
Qed.

Lemma sum_set_new k (c : Contig.t) d :
  Dict.get k d = None →
  sum_totalvariants (Dict.set k c d) = sum_totalvariants d + Contig.totalvariants c.
Proof.
  intros H. rewrite (set_new _ _ _ H). unfold sum_totalvariants.
  rewrite foldr_app. simpl. induction d as [|[k' c'] d IH]; simpl; [lia|].
  simpl in H. destruct (decide (k = k')); [done|]. rewrite IH; [lia | done].
Qed.

Lemma sum_set_known k (c c0 : Contig.t) d :
  Dict.get k d = Some c0 →
  sum_totalvariants (Dict.set k c d)
  = sum_totalvariants d - Contig.totalvariants c0 + Contig.totalvariants c.
Proof.
  induction d as [|[k' c'] d IH]; simpl; [done|].
  destruct (decide (k = k')) as [->|]; simpl.
  - intros [= ->]. lia.
  - intros H. rewrite IH; [lia | done].
Qed.

Lemma totalvariants_add_pass r (c : Contig.t) :
  Contig.totalvariants (Loop.add_pass r c) = Contig.totalvariants c.
Proof. unfold Loop.add_pass. by destruct (not_FILTER r). Qed.

(** One record adds one to the sum of the per-contig totals. *)
Lemma sum_contigs_step r d :
  sum_totalvariants (Loop.contigs_step r d) = sum_totalvariants d + 1.
Proof.
  unfold Loop.contigs_step. destruct (Dict.get (CHROM r) d) as [c|] eqn:Hget.
  - rewrite (sum_set_known _ _ c) by done.
    rewrite totalvariants_add_pass. simpl. lia.
  - by rewrite sum_set_new.
Qed.

Lemma sum_run rs :
  sum_totalvariants (Loop.contigs (Loop.run rs)) = Loop.totalvars (Loop.run rs).
Proof.
  induction rs as [|r rs IH] using rev_ind; [done|].
  rewrite run_snoc. simpl. rewrite sum_contigs_step. lia.
Qed.

(** *** Counting *)

Lemma count_records_snoc k rs r :
  count_records k (rs ++ [r])
  = count_records k rs + (if decide (CHROM r = k) then 1 else 0).
Proof.
  unfold count_records. rewrite filter_app, length_app.
  rewrite filter_cons, filter_nil. case_decide; simpl; lia.
Qed.

Lemma count_pass_snoc k rs r :
  count_pass k rs ≤ count_pass k (rs ++ [r]) ∧
  count_pass k (rs ++ [r])
  = count_pass k rs
    + (if decide (CHROM r = k) then if not_FILTER r then 1 else 0 else 0).
Proof.
  unfold count_pass. rewrite filter_app, length_app.
  rewrite filter_cons, filter_nil.
  case_decide as H; simpl.
  - destruct H as [-> ->]. rewrite decide_True by done. lia.
  - destruct (decide (CHROM r = k)) as [Heq|Hne]; [|lia].
    destruct (not_FILTER r); [by destruct H | lia].
Qed.

Lemma count_pass_le k rs : 0 ≤ count_pass k rs ≤ count_records k rs.
Proof.
  induction rs as [|r rs IH] using rev_ind.
  - unfold count_pass, count_records. simpl. lia.
  - rewrite count_records_snoc. destruct (count_pass_snoc k rs r) as [_ ->].
    case_decide; [destruct (not_FILTER r)|]; lia.
Qed.

Lemma counts_pass_le_total rs kc : counts rs kc → pass_le_total kc.
Proof.
  unfold counts, pass_le_total. intros [-> ->].
  apply (count_pass_le kc.1 rs).
Qed.

(** *** The invariant of the loop *)

Lemma NoDup_keys_set k (c : Contig.t) d :
  NoDup (Dict.keys d) → NoDup (Dict.keys (Dict.set k c d)).
Proof.
  intros Hnd. destruct (Dict.get k d) as [c0|] eqn:Hget.
  - by rewrite keys_set_known.
  - rewrite set_new by done. unfold Dict.keys. rewrite fmap_app. simpl.
    apply NoDup_app. split_and!; [done | | apply NoDup_singleton].
    intros k' Hk' ->%list_elem_of_singleton. by apply get_None_keys in Hget.
Qed.

Lemma loop_inv_step rs r d :
  loop_inv rs d → loop_inv (rs ++ [r]) (Loop.contigs_step r d).
Proof.
  intros (Hnd & Hall & Hnone). unfold Loop.contigs_step.
  assert (Hother : ∀ k' c', k' ≠ CHROM r →
            counts rs (k', c') → counts (rs ++ [r]) (k', c')).
  { intros k' c' Hne [Ht Hp]. unfold counts in *. simpl in *.
    rewrite count_records_snoc. destruct (count_pass_snoc k' rs r) as [_ ->].
    rewrite !decide_False by congruence. lia. }
  assert (Hgone : ∀ c k, Dict.get k (Dict.set (CHROM r) c d) = None →
            count_records k (rs ++ [r]) = 0).
  { intros c k. destruct (decide (CHROM r = k)) as [<-|Hne].
    - by rewrite get_set_eq.
    - rewrite get_set_ne by done. intros H%Hnone.
      rewrite count_records_snoc, decide_False by done. lia. }
  destruct (Dict.get (CHROM r) d) as [c|] eqn:Hget.
  - split_and!; [by apply NoDup_keys_set | | apply Hgone].
    apply (Forall_set (counts rs)); [done..| |done].
    apply get_Some_elem in Hget.
    eapply Forall_forall in Hall as [Ht Hp]; [|done]. simpl in *.
    unfold counts. simpl. rewrite count_records_snoc.
    destruct (count_pass_snoc (CHROM r) rs r) as [_ ->].
    rewrite !decide_True by done. unfold Loop.add_pass.
    destruct (not_FILTER r); simpl; lia.
  - split_and!; [by apply NoDup_keys_set | | apply Hgone].
    apply (Forall_set (counts rs)); [done..| |done].
    unfold counts. simpl. rewrite count_records_snoc.
    destruct (count_pass_snoc (CHROM r) rs r) as [_ ->].
    rewrite !decide_True by done. apply Hnone in Hget.
    pose proof (count_pass_le (CHROM r) rs).
    destruct (not_FILTER r); lia.
Qed.

Lemma loop_inv_run rs : loop_inv rs (Loop.contigs (Loop.run rs)).
Proof.
  induction rs as [|r rs IH] using rev_ind.
  - split_and!; [apply NoDup_nil_2 | apply Forall_nil_2 | done].
  - rewrite run_snoc. by apply loop_inv_step.
Qed.

(** Between the two increments of a known contig the bound still holds. *)
Lemma pass_le_total_mid r d :
  NoDup (Dict.keys d) → Forall pass_le_total d →
  Forall pass_le_total (Loop.contigs_mid r d).
Proof.
  intros Hnd Hall. unfold Loop.contigs_mid.
  destruct (Dict.get (CHROM r) d) as [c|] eqn:Hget; [|done].
  apply (Forall_set pass_le_total); [done | auto | | done].
  apply get_Some_elem in Hget. eapply Forall_forall in Hall; [|done].
  unfold pass_le_total in *. simpl in *. lia.
Qed.

(** The list [chromosomes] is the list of the keys of [contigs]. *)
Lemma chromosomes_keys rs :
  Loop.chromosomes (Loop.run rs) = Dict.keys (Loop.contigs (Loop.run rs)).
Proof.
  induction rs as [|r rs IH] using rev_ind; [done|].
  rewrite run_snoc. simpl. rewrite IH. unfold Loop.contigs_step.
  destruct (Dict.get (CHROM r) (Loop.contigs (Loop.run rs))) as [c|] eqn:Hget.
  - rewrite keys_set_known by done. rewrite bool_decide_true; [done|].
    apply dec_stable. intros Hn. apply get_None_keys in Hn. congruence.
  - rewrite set_new by done. apply get_None_keys in Hget.
    rewrite bool_decide_false by done. unfold Dict.keys. by rewrite fmap_app.
Qed.

End LoopFacts.

(** C3. At every point of the aggregation, that is after the first [n]
    records of any sequence [rs] (and so at its end), every entry of
    [contigs] has [passvariants <= totalvariants]; [totalvariants] is the
    number of the records seen of that contig and [passvariants] the number
    of those with an empty [FILTER]. The bound also holds between line 81 and
    line 82, when only [totalvariants] has been incremented. *)
Theorem passvariants_le_totalvariants (rs : list vcf_record) (n : nat) :
  let seen := take n rs in
  let d := Loop.contigs (Loop.run seen) in
  Loop.run rs = foldl Loop.body (Loop.run seen) (drop n rs) ∧
  Forall (λ kc, pass_le_total kc ∧ counts seen kc) d ∧
  ∀ record, Forall pass_le_total (Loop.contigs_mid record d).
Proof.
  intros seen d. destruct (loop_inv_run seen) as (Hnd & Hall & _).
  assert (Hle : Forall pass_le_total d).
  { eapply Forall_impl; [exact Hall | apply counts_pass_le_total]. }
  split_and!.
  - apply run_through.
  - apply Forall_and; split; [exact Hle | exact Hall].
  - intros record. by apply pass_le_total_mid.
Qed.

(** ** Reasoning about methods *)

Section Monad.

Context {A B : Type}.
Implicit Types (m : M A) (f : A → M B) (s : state).

Lemma bind_ok m f s a s1 : m s = (Ok a, s1) → (m ≫= f) s = f a s1.
Proof. unfold mbind, M_bind. by intros ->. Qed.

Lemma bind_raise m f s e s1 : m s = (Raise e, s1) → (m ≫= f) s = (Raise e, s1).
Proof. unfold mbind, M_bind. by intros ->. Qed.

Lemma bind_ok_inv m f s b s2 :
  (m ≫= f) s = (Ok b, s2) → ∃ a s1, m s = (Ok a, s1) ∧ f a s1 = (Ok b, s2).
Proof.
  unfold mbind, M_bind. destruct (m s) as [[a|e] s1]; [eauto | done].
Qed.

Lemma lift_bind (r : result A) f s :
  (lift r ≫= f) s = match r with Ok a => f a s | Raise e => (Raise e, s) end.
Proof. unfold mbind, M_bind, lift. by destruct r. Qed.

End Monad.

Section Steps.

Context (R : relation state) `{!PreOrder R}.

Lemma steps_ret {A} (a : A) : steps R (mret a).
Proof. intros s. simpl. reflexivity. Qed.

Lemma steps_raise {A} e : steps R (raise e : M A).
Proof. intros s. simpl. reflexivity. Qed.

Lemma steps_lift {A} (r : result A) : steps R (lift r).
Proof. intros s. simpl. reflexivity. Qed.

Lemma steps_bind {A B} (m : M A) (f : A → M B) :
  steps R m → (∀ a, steps R (f a)) → steps R (m ≫= f).
Proof.
  intros Hm Hf s. specialize (Hm s). unfold mbind, M_bind.
  destruct (m s) as [[a|e] s1]; simpl in *; [|done].
  etrans; [exact Hm | apply Hf].
Qed.

End Steps.

Global Instance emits_only_preorder P : PreOrder (emits_only P).
Proof.
  split.
  - intros s. exists []. by rewrite app_nil_r.
  - intros s1 s2 s3 (e1 & H1 & F1) (e2 & H2 & F2). exists (e1 ++ e2).
    split; [by rewrite H2, H1, app_assoc | by apply Forall_app].
Qed.

Global Instance keeps_preorder {B} (f : state → B) : PreOrder (keeps f).
Proof. split; [done | intros s1 s2 s3 H1 H2; unfold keeps in *; congruence]. Qed.

(** The primitive steps either leave the trace alone or add one event. *)
Ltac steps_prim :=
  let s := fresh "s" in
  intros s; cbn;
  first
    [ reflexivity
    | by (exists []; rewrite app_nil_r)
    | by (eexists [_]; split;
            [reflexivity
            | apply Forall_singleton; unfold not_popen, not_save; simpl; tauto]) ].

Ltac steps_go :=
  repeat first
    [ apply steps_ret; apply _
    | apply steps_raise; apply _
    | apply steps_lift; apply _
    | apply steps_bind; [apply _ | | intros ?]
    | match goal with
      | |- steps _ (match ?x with _ => _ end) => destruct x
      | |- steps _ (set_files _) => steps_prim
      | |- steps _ (set_vcf_info _) => steps_prim
      | |- steps _ (set_original_file _) => steps_prim
      | |- steps _ get_files => steps_prim
      | |- steps _ get_vcf_info => steps_prim
      | |- steps _ get_original_file => steps_prim
      | |- steps _ (fresh_uuid _) => steps_prim
      | |- steps _ (emit _) => steps_prim
      | H : _ |- _ => apply H
      end
    | progress unfold print, log, getitem, read_file, write_file, exists_, copy,
        is_gz_file, md5_sum_local_file, gzip_file, set_file_ref, check_upload ].

(** ** Files *)

Lemma read_file_spec path s :
  read_file path s
  = (match files s !! path with
     | Some c => Ok c
     | None => Raise (OSError "No such file or directory")
     end, s).
Proof. unfold read_file, mbind, M_bind, get_files. by destruct (files s !! path). Qed.

Lemma read_file_ok path s c s' :
  read_file path s = (Ok c, s') → files s !! path = Some c ∧ s' = s.
Proof.
  rewrite read_file_spec. destruct (files s !! path); [|done]. by intros [= -> ->].
Qed.

Lemma exists_spec path s :
  exists_ path s = (Ok (bool_decide (is_Some (files s !! path))), s).
Proof. reflexivity. Qed.

(** ** Cross-validation *)

Lemma elem_of_not_in (xs ref : list string) x : x ∈ not_in xs ref ↔ x ∈ xs ∧ x ∉ ref.
Proof. unfold not_in. rewrite list_elem_of_filter. tauto. Qed.

Lemma reported_chk_of_list l : reported (chk_of_list l) = l.
Proof. by destruct l. Qed.

(** The sample check compares the identifiers upper-cased and stripped. *)
Lemma sample_check_normalises (vcf_genotypes sample_ids : list string) x :
  x ∈ reported (_validate_vcf_to_sample vcf_genotypes sample_ids) ↔
  x ∈ normalise <$> vcf_genotypes ∧ ∀ y, y ∈ sample_ids → normalise y ≠ x.
Proof.
  unfold _validate_vcf_to_sample. rewrite reported_chk_of_list, elem_of_not_in.
  rewrite (list_elem_of_fmap normalise sample_ids).
  split; intros [H1 H2]; (split; [done|]).
  - intros y Hy Heq. apply H2. by exists y.
  - intros (y & -> & Hy). by apply (H2 y).
Qed.

(** The assembly check returns the identifiers absent as they are written. *)
Lemma assembly_check_result (vcf_chromosomes assembly_chromosomes : list string) s :
  (_chk_if_vcf_ids_in_assembly vcf_chromosomes assembly_chromosomes s).1
  = Ok (chk_of_list (not_in vcf_chromosomes assembly_chromosomes)).
Proof. reflexivity. Qed.

(** C1. The sample check normalises both sides, the assembly check does not:
    it reports every identifier of the file that is not, character for
    character, an identifier of the assembly, also when the two are equal
    once upper-cased and stripped. *)
Theorem assembly_check_compares_verbatim
    (vcf_chromosomes assembly_chromosomes : list string) (x : string) (s : state) :
  x ∈ vcf_chromosomes → x ∉ assembly_chromosomes →
  ∃ ids, (_chk_if_vcf_ids_in_assembly vcf_chromosomes assembly_chromosomes s).1
         = Ok (Unresolved ids) ∧ x ∈ ids.
Proof.
  intros Hin Hout. rewrite assembly_check_result.
  assert (Hx : x ∈ not_in vcf_chromosomes assembly_chromosomes)
    by by apply elem_of_not_in.
  destruct (not_in vcf_chromosomes assembly_chromosomes) as [|y l]; [by inversion Hx|].
  by exists (y :: l).
Qed.

Lemma assembly_check_compares_verbatim_witness :
  normalise "chr1" = normalise "CHR1" ∧
  _validate_vcf_to_sample ["chr1"] ["CHR1"] = AllResolved ∧
  ∃ ids, (_chk_if_vcf_ids_in_assembly ["chr1"] ["CHR1"]
            (Fixture.start (Fixture.good "VCFv4.2"))).1 = Ok (Unresolved ids)
         ∧ "chr1" ∈ ids.
Proof.
  split; [reflexivity|]. split; [reflexivity|].
  apply assembly_check_compares_verbatim.
  - compute_done.
  - compute_done.
Defined.

(** ** Parsing *)

Lemma parse_reader_inv reader path info :
  parse_reader reader path = Ok info →
  Info.contigs info = Loop.contigs (Loop.run (records reader)) ∧
  Info.total_variants info = Loop.totalvars (Loop.run (records reader)) ∧
  Info.chromosome_ids info = Loop.chromosomes (Loop.run (records reader)) ∧
  reader_version reader = Ok (Info.version info).
Proof.
  unfold parse_reader. destruct (reader_version reader) as [v|e]; [|done].
  simpl. by intros [= <-].
Qed.

Lemma _parse_vcf_data_inv E params s info s' :
  _parse_vcf_data E params s = (Ok info, s') →
  ∃ path text reader s1,
    _stage_input E params s = (Ok path, s1) ∧
    files s1 !! path = Some text ∧
    Reader E text = Ok reader ∧
    parse_reader reader path = Ok info.
Proof.
  unfold _parse_vcf_data.
  intros (path & s1 & Hstage & H)%bind_ok_inv.
  apply bind_ok_inv in H as (text & s2 & Hread & H).
  apply bind_ok_inv in H as (reader & s3 & Hreader & H).
  apply read_file_ok in Hread as [Hread ->].
  unfold lift in Hreader, H. injection Hreader as Hreader <-. injection H as H <-.
  by exists path, text, reader, s1.
Qed.

(** C2. When [_parse_vcf_data] completes, the [totalvariants] of the
    entries of [contigs] add up to [total_variants]. *)
Theorem total_variants_is_sum E params s info s' :
  _parse_vcf_data E params s = (Ok info, s') →
  sum_totalvariants (Info.contigs info) = Info.total_variants info.
Proof.
  intros H. apply _parse_vcf_data_inv in H as (path & text & reader & s1 & _ & _ & _ & H).
  apply parse_reader_inv in H as (-> & -> & _). apply sum_run.
Qed.

Lemma total_variants_is_sum_witness :
  match _parse_vcf_data (Fixture.world (Fixture.good "VCFv4.2")) Fixture.params
          (Fixture.start (Fixture.good "VCFv4.2")) with
  | (Ok info, _) =>
      Info.total_variants info = 5 ∧
      sum_totalvariants (Info.contigs info) = Info.total_variants info
  | (Raise _, _) => False
  end.
Proof.
  destruct (_parse_vcf_data _ _ _) as [[info|e] s'] eqn:H.
  - split; [|exact (total_variants_is_sum _ _ _ _ _ H)].
    vm_compute in H. injection H as Hinfo Hst. rewrite <- Hinfo. done.
  - vm_compute in H. discriminate H.
Defined.

(** ** Strings *)

Lemma str_chars s : Py.str (Py.chars s) = s.
Proof. apply string_of_list_ascii_of_string. Qed.

Lemma chars_str l : Py.chars (Py.str l) = l.
Proof. apply list_ascii_of_string_of_list_ascii. Qed.

Lemma split_go_no_sep c cur l :
  c ∉ l → Py.split_go c cur l = [Py.str (reverse cur ++ l)].
Proof.
  revert cur. induction l as [|x l IH]; intros cur Hc; simpl.
  - by rewrite app_nil_r.
  - apply not_elem_of_cons in Hc as [Hx Hl].
    rewrite bool_decide_false by done.
    rewrite IH by done. by rewrite reverse_cons, <- app_assoc.
Qed.

(** Without separator the text is the only field. *)
Lemma split_no_sep c s : c ∉ Py.chars s → Py.split c s = [s].
Proof. intros H. unfold Py.split. rewrite split_go_no_sep by done. simpl. by rewrite str_chars. Qed.

Lemma is_prefix_app_sep c p a r :
  c ∉ p → Py.is_prefix p (a ++ c :: r) = Py.is_prefix p a.
Proof.
  revert a. induction p as [|y p IH]; intros a Hc; [by destruct a|].
  apply not_elem_of_cons in Hc as [Hy Hp].
  destruct a as [|z a]; simpl.
  - by rewrite bool_decide_false.
  - by rewrite IH.
Qed.

(** The first field starts like the text, for a prefix without separator. *)
Lemma split_go_head c cur l :
  ∃ t rest, Py.split_go c cur l = t :: rest ∧
    ∀ p, c ∉ p → Py.is_prefix p (Py.chars t) = Py.is_prefix p (reverse cur ++ l).
Proof.
  revert cur. induction l as [|x l IH]; intros cur; simpl.
  - eexists _, _. split; [done|]. intros p _. by rewrite chars_str, app_nil_r.
  - case_bool_decide as Hx.
    + subst x. eexists _, _. split; [done|]. intros p Hp.
      by rewrite chars_str, is_prefix_app_sep.
    + destruct (IH (x :: cur)) as (t & rest & -> & Ht). exists t, rest.
      split; [done|]. intros p Hp. rewrite Ht by done.
      by rewrite reverse_cons, <- app_assoc.
Qed.

Lemma split_head c s p :
  c ∉ Py.chars p →
  ∃ t rest, Py.split c s = t :: rest ∧ Py.startswith t p = Py.startswith s p.
Proof.
  intros Hp. destruct (split_go_head c [] (Py.chars s)) as (t & rest & Ht & Hpre).
  exists t, rest. split; [done|]. unfold Py.startswith. by rewrite Hpre.
Qed.

(** ** Version detection *)

Lemma is_gz_file_spec path s :
  is_gz_file path s
  = (match files s !! path with
     | Some c => Ok (bool_decide (take 2 (Py.chars c) = ["031"%char; "139"%char]))
     | None => Raise (OSError "No such file or directory")
     end, s).
Proof.
  unfold is_gz_file. unfold mbind at 1, M_bind. rewrite read_file_spec.
  by destruct (files s !! path).
Qed.

(** Of a file that is not an archive, [_get_vcf_version] reads the first
    line. *)
Lemma _get_vcf_version_plain E path s text :
  files s !! path = Some text →
  take 2 (Py.chars text) ≠ ["031"%char; "139"%char] →
  _get_vcf_version E path s = version_of_line (readline text) s.
Proof.
  intros Hf Hgz. unfold _get_vcf_version.
  erewrite bind_ok; [|by rewrite is_gz_file_spec, Hf].
  rewrite bool_decide_false by done.
  erewrite bind_ok; [|by rewrite read_file_spec, Hf].
  by erewrite bind_ok.
Qed.

(** A first line that does not start with [##fileformat], an empty one
    included, raises the [ValueError] of line 132. *)
Lemma version_of_line_without_token line s :
  Py.startswith line "##fileformat" = false →
  ∃ msg, (version_of_line line s).1 = Raise (ValueError msg).
Proof.
  intros Hl. unfold version_of_line.
  destruct (split_head "=" line "##fileformat") as (t & rest & -> & Ht);
    [compute_done|].
  rewrite lift_bind. simpl. rewrite Ht, Hl. simpl. eauto.
Qed.

(** C6. A first line that starts with [##fileformat] and holds no [=] is
    malformed, and [_get_vcf_version] leaves with an [IndexError] from
    [tokens[1]] (line 135), not with the [ValueError] of line 132. *)
Theorem version_line_without_equals E path s text :
  files s !! path = Some text →
  take 2 (Py.chars text) ≠ ["031"%char; "139"%char] →
  Py.startswith (readline text) "##fileformat" = true →
  "="%char ∉ Py.chars (readline text) →
  _get_vcf_version E path s = (Raise IndexError, s).
Proof.
  intros Hf Hgz Hstart Heq. rewrite (_get_vcf_version_plain _ _ _ text) by done.
  unfold version_of_line. rewrite split_no_sep by done.
  rewrite lift_bind. simpl. rewrite Hstart. simpl. by rewrite lift_bind.
Qed.

Lemma version_line_without_equals_witness :
  let s := mk_state {[ Fixture.vcf_path := "##fileformat" +:+ nl ]} [] None None 0 in
  _get_vcf_version (Fixture.world (Fixture.good "")) Fixture.vcf_path s
  = (Raise IndexError, s).
Proof.
  intros s. apply (version_line_without_equals _ _ _ ("##fileformat" +:+ nl)).
  - reflexivity.
  - compute_done.
  - reflexivity.
  - compute_done.
Defined.

(** C5. [_parse_vcf_data] converts the two characters [fileformat[4:6]]:
    whatever minor version the file declares after [VCFv4.], the version it
    records is 4.0, where [_get_vcf_version] reads 4.2 for [VCFv4.2]. *)
Theorem recorded_version_drops_minor E params s info s' :
  _parse_vcf_data E params s = (Ok info, s') →
  ∃ path text reader s1,
    _stage_input E params s = (Ok path, s1) ∧
    files s1 !! path = Some text ∧
    Reader E text = Ok reader ∧
    ∀ minor, metadata reader !! "fileformat" = Some ("VCFv4." +:+ minor) →
             Info.version info = Fin 4.
Proof.
  intros H. apply _parse_vcf_data_inv in H as (path & text & reader & s1 & Hs & Hf & Hr & H).
  exists path, text, reader, s1. split_and!; [done..|].
  intros minor Hm. apply parse_reader_inv in H as (_ & _ & _ & Hv).
  unfold reader_version in Hv. rewrite Hm in Hv. by injection Hv as <-.
Qed.

Lemma recorded_version_drops_minor_witness :
  let sc := Fixture.good "VCFv4.2" in
  (_get_vcf_version (Fixture.world sc) Fixture.vcf_path (Fixture.start sc)).1
  = Ok (Fin (21 # 5)) ∧
  match _parse_vcf_data (Fixture.world sc) Fixture.params (Fixture.start sc) with
  | (Ok info, _) => Info.version info = Fin 4
  | (Raise _, _) => False
  end.
Proof.
  intros sc. split; [reflexivity|].
  destruct (_parse_vcf_data _ _ _) as [[info|e] s'] eqn:H.
  - apply recorded_version_drops_minor in H as (path & text & reader & s1 & Hs & Hf & Hr & Hv).
    apply (Hv "2"). vm_compute in Hs. injection Hs as <- <-.
    vm_compute in Hf. injection Hf as <-.
    vm_compute in Hr. injection Hr as <-. reflexivity.
  - vm_compute in H. discriminate H.
Defined.

(** ** Validation *)

Lemma validators_invoked_app t1 t2 :
  validators_invoked (t1 ++ t2) = validators_invoked t1 ++ validators_invoked t2.
Proof. apply omap_app. Qed.

Lemma validators_invoked_not_popen evs :
  Forall not_popen evs → validators_invoked evs = [].
Proof.
  induction 1 as [|ev evs Hev _ IH]; [done|].
  unfold validators_invoked in *.
  destruct ev; try (exfalso; by apply Hev); csimpl; exact IH.
Qed.

(** A method that starts no process leaves the list of the validators
    started as it is. *)
Lemma invoked_steps {A} (m : M A) s :
  steps (emits_only not_popen) m →
  validators_invoked (trace (m s).2) = validators_invoked (trace s).
Proof.
  intros Hm. destruct (Hm s) as (evs & -> & Hall).
  rewrite validators_invoked_app, (validators_invoked_not_popen evs) by done.
  by rewrite app_nil_r.
Qed.

Section Validation.

Variable E : env.

Lemma _stage_input_not_popen params : steps (emits_only not_popen) (_stage_input E params).
Proof. unfold _stage_input. steps_go. Qed.

Lemma _get_vcf_version_not_popen path :
  steps (emits_only not_popen) (_get_vcf_version E path).
Proof. unfold _get_vcf_version, version_of_line. steps_go. Qed.

Lemma interpret_not_popen validator_output name path :
  steps (emits_only not_popen) (interpret validator_output name path).
Proof. unfold interpret, report_vcftools. steps_go. Qed.

Lemma _stage_input_key params s path s1 :
  _stage_input E params s = (Ok path, s1) → "vcf_staging_file_path" ∈ dom params.
Proof.
  unfold _stage_input. intros (p & s0 & Hp & _)%bind_ok_inv.
  unfold getitem, lift in Hp. apply elem_of_dom.
  by destruct (params !! "vcf_staging_file_path").
Qed.

(** C10. With [genome_ref] or [vcf_staging_file_path] missing from
    [params], [validate_vcf] leaves before it stages a file or starts a
    validator, but not with the [ValueError] it means to raise: line 141 (or
    143) adds the dictionary to the message, which is a [TypeError]. *)
Theorem missing_key_raises_type_error params s :
  "genome_ref" ∉ dom params ∨ "vcf_staging_file_path" ∉ dom params →
  validate_vcf E params s = (Raise TypeError, s).
Proof.
  intros Hmiss. unfold validate_vcf.
  destruct (decide ("genome_ref" ∈ dom params)) as [Hg|Hg].
  - destruct Hmiss as [?|Hp]; [done|].
    erewrite bind_ok; [|by rewrite bool_decide_true].
    apply bind_raise. by rewrite bool_decide_false.
  - apply bind_raise. by rewrite bool_decide_false.
Qed.

Lemma validate_vcf_staged params s path s1 v s2 :
  "genome_ref" ∈ dom params →
  _stage_input E params s = (Ok path, s1) →
  _get_vcf_version E path s1 = (Ok v, s2) →
  validate_vcf E params s = validate_staged E path v s2.
Proof.
  intros Hg Hs Hv. pose proof (_stage_input_key _ _ _ _ Hs) as Hp.
  unfold validate_vcf.
  erewrite bind_ok; [|by rewrite bool_decide_true].
  erewrite bind_ok; [|by rewrite bool_decide_true].
  erewrite bind_ok; [|exact Hs]. by erewrite bind_ok.
Qed.

Lemma popen_spec cmd s :
  popen E cmd s
  = let '(out, fs', returncode) := run_validator E cmd (files s) in
    (Ok (retained out, returncode),
     mk_state fs' (trace s ++ [EvPopen cmd (scratch E)]) (vcf_info s)
              (original_file s) (uuids s)).
Proof.
  unfold popen, mbind, M_bind, emit, get_files. simpl.
  by destruct (run_validator E cmd (files s)) as [[out fs'] rc].
Qed.

End Validation.

Lemma missing_key_raises_type_error_witness :
  let sc := Fixture.good "VCFv4.2" in
  validate_vcf (Fixture.world sc) ∅ (Fixture.start sc) = (Raise TypeError, Fixture.start sc) ∧
  validate_vcf (Fixture.world sc) (delete "genome_ref" Fixture.params) (Fixture.start sc)
  = (Raise TypeError, Fixture.start sc).
Proof.
  intros sc. split; apply missing_key_raises_type_error.
  - left. compute_done.
  - left. compute_done.
Defined.

Lemma float_lt_not_ge a b : float_lt a b = true → float_ge a b = false.
Proof.
  destruct a as [x|[]|], b as [y|[]|]; simpl; try done.
  by destruct (Qle_bool y x).
Qed.

Section Dispatch.

Variable E : env.
Implicit Types (v : pyfloat) (path : string) (s : state).

Lemma validator_cmd_for_strict v path s :
  float_ge v (Fin (41 # 10)) = true →
  ∃ s', validator_cmd_for v path s = (Ok (strict_cmd path), s') ∧
        files s' = files s ∧ uuids s' = uuids s ∧
        validators_invoked (trace s') = validators_invoked (trace s).
Proof.
  intros H. unfold validator_cmd_for. rewrite H. eexists. split; [reflexivity|].
  simpl. split_and!; [done..|]. by rewrite !validators_invoked_app, !app_nil_r.
Qed.

Lemma validator_cmd_for_legacy v path s :
  float_ge v (Fin (41 # 10)) = false → float_ge v (Fin 4) = true →
  ∃ s', validator_cmd_for v path s = (Ok (legacy_cmd path), s') ∧
        files s' = files s ∧ uuids s' = uuids s ∧
        validators_invoked (trace s') = validators_invoked (trace s).
Proof.
  intros H1 H2. unfold validator_cmd_for. rewrite H1, H2. eexists. split; [reflexivity|].
  simpl. split_and!; [done..|]. by rewrite !validators_invoked_app, !app_nil_r.
Qed.

Lemma validator_cmd_for_unsupported v path s :
  float_ge v (Fin 4) = false → float_ge v (Fin (41 # 10)) = false →
  validator_cmd_for v path s = (Raise version_error, s).
Proof. intros H1 H2. unfold validator_cmd_for. by rewrite H2, H1. Qed.

(** What runs after the command is chosen starts the process once. *)
Lemma validate_staged_invokes path v s cmd s1 :
  validator_cmd_for v path
    (emit (EvMkdir (path_join (scratch E) ("validation_" +:+ uuid4 E (uuids s))))
       (fresh_uuid E s).2).2 = (Ok cmd, s1) →
  validators_invoked (trace s1) = validators_invoked (trace s) →
  validators_invoked (trace (validate_staged E path v s).2)
  = validators_invoked (trace s) ++ [cmd].
Proof.
  intros Hcmd Hinv. unfold validate_staged.
  erewrite bind_ok; [|reflexivity].
  erewrite bind_ok; [|reflexivity].
  erewrite bind_ok; [|exact Hcmd].
  erewrite bind_ok; [|reflexivity].
  unfold mbind at 1, M_bind. rewrite popen_spec. simpl.
  destruct (run_validator E cmd (files s1)) as [[out fs'] rc].
  match goal with |- context [ (?m ≫= ?f) ?st ] =>
    change (validators_invoked (trace ((m ≫= f) st).2) = validators_invoked (trace s) ++ [cmd])
  end.
  rewrite invoked_steps.
  - simpl. rewrite !validators_invoked_app, Hinv. simpl. by rewrite app_nil_r.
  - apply steps_bind; [apply _ | apply interpret_not_popen | intros name].
    steps_go.
Qed.

Lemma float_ge_weaken v :
  float_ge v (Fin (41 # 10)) = true → float_ge v (Fin 4) = true.
Proof.
  destruct v as [x|[]|]; simpl; try done.
  rewrite !Qle_bool_iff. intros H. eapply Qle_trans; [|exact H]. done.
Qed.

Lemma validate_staged_unsupported path v s :
  float_ge v (Fin 4) = false →
  (validate_staged E path v s).1 = Raise version_error ∧
  validators_invoked (trace (validate_staged E path v s).2) = validators_invoked (trace s).
Proof.
  intros H4. assert (H41 : float_ge v (Fin (41 # 10)) = false).
  { destruct (float_ge v (Fin (41 # 10))) eqn:H; [|done].
    apply float_ge_weaken in H. congruence. }
  unfold validate_staged.
  erewrite bind_ok; [|reflexivity].
  erewrite bind_ok; [|reflexivity].
  erewrite bind_raise; [|by apply validator_cmd_for_unsupported].
  simpl. split; [done|]. by rewrite validators_invoked_app, app_nil_r.
Qed.

End Dispatch.

(** C4. Once the file is staged and its version [v] is read, [validate_vcf]
    starts exactly one validator: the strict one for [v >= 4.1], the legacy
    one for [4.0 <= v < 4.1]; for [v < 4.0] it raises the version error and
    starts none. *)
Theorem validator_dispatch E params s path s1 v s2 :
  "genome_ref" ∈ dom params →
  _stage_input E params s = (Ok path, s1) →
  _get_vcf_version E path s1 = (Ok v, s2) →
  let r := validate_vcf E params s in
  let started := validators_invoked (trace r.2) in
  let before := validators_invoked (trace s) in
  (float_ge v (Fin (41 # 10)) = true → started = before ++ [strict_cmd path]) ∧
  (float_ge v (Fin 4) = true → float_lt v (Fin (41 # 10)) = true →
   started = before ++ [legacy_cmd path]) ∧
  (float_lt v (Fin 4) = true → started = before ∧ r.1 = Raise version_error).
Proof.
  intros Hg Hs Hv r started before.
  assert (Hbefore : validators_invoked (trace s2) = before).
  { pose proof (invoked_steps (_get_vcf_version E path) s1
                  (_get_vcf_version_not_popen E path)) as H2.
    pose proof (invoked_steps (_stage_input E params) s
                  (_stage_input_not_popen E params)) as H1.
    rewrite Hv in H2. rewrite Hs in H1. simpl in *. subst before. congruence. }
  subst started r. rewrite (validate_vcf_staged E params s path s1 v s2) by done.
  rewrite <- Hbefore. split_and!.
  - intros H. destruct (validator_cmd_for_strict v path
      (emit (EvMkdir (path_join (scratch E) ("validation_" +:+ uuid4 E (uuids s2))))
         (fresh_uuid E s2).2).2 H) as (s3 & Hcmd & _ & _ & Hinv).
    apply (validate_staged_invokes E path v s2 _ s3 Hcmd).
    rewrite Hinv. simpl. by rewrite validators_invoked_app, app_nil_r.
  - intros H4 H41%float_lt_not_ge. destruct (validator_cmd_for_legacy v path
      (emit (EvMkdir (path_join (scratch E) ("validation_" +:+ uuid4 E (uuids s2))))
         (fresh_uuid E s2).2).2 H41 H4) as (s3 & Hcmd & _ & _ & Hinv).
    apply (validate_staged_invokes E path v s2 _ s3 Hcmd).
    rewrite Hinv. simpl. by rewrite validators_invoked_app, app_nil_r.
  - intros H%float_lt_not_ge.
    destruct (validate_staged_unsupported E path v s2 H) as [Hr Ht]. by split.
Qed.

Lemma validator_dispatch_witness :
  let sc := Fixture.good "VCFv4.0" in
  validators_invoked
    (trace (validate_vcf (Fixture.world sc) Fixture.params (Fixture.start sc)).2)
  = [legacy_cmd Fixture.vcf_path].
Proof.
  intros sc.
  destruct (_stage_input (Fixture.world sc) Fixture.params (Fixture.start sc))
    as [[path|e] s1] eqn:Hs; [|vm_compute in Hs; discriminate Hs].
  destruct (_get_vcf_version (Fixture.world sc) path s1) as [[v|e] s2] eqn:Hv.
  - assert (Hg : "genome_ref" ∈ dom Fixture.params) by compute_done.
    destruct (validator_dispatch _ _ _ _ _ _ _ Hg Hs Hv) as (_ & Hlegacy & _).
    vm_compute in Hs. injection Hs as <- <-.
    vm_compute in Hv. injection Hv as <- <-.
    apply Hlegacy; reflexivity.
  - vm_compute in Hs. injection Hs as <- <-. vm_compute in Hv. discriminate Hv.
Defined.

(** The boundaries: 4.1 goes to the strict validator, 4.0 to the legacy one,
    3.9 to the version error. *)
Example dispatch_boundaries :
  let run ff := validate_vcf (Fixture.world (Fixture.good ff)) Fixture.params
                  (Fixture.start (Fixture.good ff)) in
  validators_invoked (trace (run "VCFv4.1").2) = [strict_cmd Fixture.vcf_path] ∧
  validators_invoked (trace (run "VCFv4.0").2) = [legacy_cmd Fixture.vcf_path] ∧
  validators_invoked (trace (run "VCFv3.9").2) = [] ∧
  (run "VCFv3.9").1 = Raise version_error.
Proof. vm_compute. done. Qed.

(** ** Interpretation of the output *)

Section Interpretation.

Variable E : env.

(** Choosing the command only prints, and the command does not depend on
    the state. *)
Lemma validator_cmd_for_any v path s cmd s0 :
  (validator_cmd_for v path s).1 = Ok cmd →
  ∃ s1, validator_cmd_for v path s0 = (Ok cmd, s1) ∧ files s1 = files s0.
Proof.
  unfold validator_cmd_for.
  destruct (float_ge v (Fin (41 # 10))); [|destruct (float_ge v (Fin 4))];
    simpl; intros [= <-]; by eexists.
Qed.

(** With no line kept, the handler of the [IndexError] writes the note. *)
Lemma interpret_nothing_retained name path s :
  interpret [] name path s
  = (Ok name, mk_state (<[name := success_note path]> (files s)) (trace s) (vcf_info s)
                       (original_file s) (uuids s)).
Proof. reflexivity. Qed.

(** A first kept line that does not start with the marker at its first
    column (it is indented) takes the branch of lines 217-223: the kept
    lines are written to the report and the run fails with them. *)
Lemma interpret_indented_marker line0 rest name path s :
  Py.slice_to 6 line0 ≠ "[info]" →
  let kept := line0 :: rest in
  (interpret kept name path s).1 = Raise (ValueError (Py.join nl kept)) ∧
  files (interpret kept name path s).2 = <[name := Py.join "" kept]> (files s).
Proof.
  intros H kept. unfold interpret. simpl. by rewrite bool_decide_false.
Qed.

End Interpretation.

(** C7. In the output interpretation of [validate_vcf] (lines 150-252), when
    no line of the captured output carries the info marker, whether the
    output is empty or not, nothing is retained: the [IndexError] handler
    finds [validator_output] empty, writes the synthesized success report to
    the fallback path and returns that path without error. Diagnostics
    without marker never fail the run. *)
Theorem unmarked_output_reads_as_success E path v s cmd out fs' rc :
  (validator_cmd_for v path s).1 = Ok cmd →
  run_validator E cmd (files s) = (out, fs', rc) →
  retained out = [] →
  let name := path_join (path_join (scratch E) ("validation_" +:+ uuid4 E (uuids s)))
                        "vcf_validation.txt" in
  let r := validate_staged E path v s in
  r.1 = Ok name ∧ files r.2 = <[name := success_note path]> fs'.
Proof.
  intros Hcmd Hrun Hkept name r.
  destruct (validator_cmd_for_any v path s cmd
    (emit (EvMkdir (path_join (scratch E) ("validation_" +:+ uuid4 E (uuids s))))
       (fresh_uuid E s).2).2 Hcmd) as (s1 & Hs1 & Hf1).
  assert (∃ s', validate_staged E path v s = (Ok name, s') ∧
                files s' = <[name := success_note path]> fs') as (s' & Hr & Hf).
  { eexists. split.
    - unfold validate_staged.
      erewrite bind_ok; [|reflexivity].
      erewrite bind_ok; [|reflexivity].
      erewrite bind_ok; [|exact Hs1].
      erewrite bind_ok; [|reflexivity].
      erewrite bind_ok; [|rewrite popen_spec; cbn [files]; rewrite Hf1; cbn [files];
                          cbn; rewrite Hrun, Hkept; reflexivity].
      cbv beta iota.
      erewrite bind_ok; [|apply interpret_nothing_retained].
      erewrite bind_ok; [|rewrite exists_spec; cbn [files]; fold name;
                          rewrite lookup_insert_eq, bool_decide_true by eauto;
                          reflexivity].
      reflexivity.
    - reflexivity. }
  subst r. by rewrite Hr.
Qed.

Lemma unmarked_output_reads_as_success_witness :
  let out := ["The header tag 'reference' not present." +:+ nl;
              "Could not parse the line, wrong number of columns." +:+ nl] in
  let sc := Fixture.with_output (Fixture.good "VCFv4.0") out in
  let name := "/kb/module/work/tmp/validation_0000/vcf_validation.txt" in
  let r := validate_staged (Fixture.world sc) Fixture.vcf_path (Fin 4) (Fixture.start sc) in
  r.1 = Ok name ∧ files r.2 !! name = Some (success_note Fixture.vcf_path).
Proof.
  intros out sc name r.
  destruct (unmarked_output_reads_as_success (Fixture.world sc) Fixture.vcf_path (Fin 4)
              (Fixture.start sc) (legacy_cmd Fixture.vcf_path) out
              (files (Fixture.start sc)) 0 eq_refl eq_refl eq_refl) as [H1 H2].
  split; [exact H1|]. subst r. rewrite H2. apply lookup_insert_eq.
Defined.

(** On a version 4.0 file whose validator prints diagnostics, the whole of
    [validate_vcf] returns the path of the success note. *)
Example legacy_diagnostics_pass_validation :
  let out := ["The header tag 'reference' not present." +:+ nl;
              "Could not parse the line, wrong number of columns." +:+ nl] in
  let sc := Fixture.with_output (Fixture.good "VCFv4.0") out in
  (validate_vcf (Fixture.world sc) Fixture.params (Fixture.start sc)).1
  = Ok "/kb/module/work/tmp/validation_0000/vcf_validation.txt".
Proof. vm_compute. reflexivity. Qed.

(** ** Construction of the record *)

Section Primitives.

Context {A : Type}.
Implicit Types (s : state) (a : A).

Lemma mret_ok a a' s s' : (mret a : M A) s = (Ok a', s') → a' = a ∧ s' = s.
Proof. by intros [= -> ->]. Qed.

Lemma lift_ok (r : result A) a s s' : lift r s = (Ok a, s') → r = Ok a ∧ s' = s.
Proof. by intros [= -> ->]. Qed.

End Primitives.

Lemma get_vcf_info_ok s i s' :
  get_vcf_info s = (Ok i, s') → vcf_info s = Some i ∧ s' = s.
Proof. unfold get_vcf_info. destruct (vcf_info s); [|done]. by intros [= -> ->]. Qed.

Lemma get_original_file_ok s p s' :
  get_original_file s = (Ok p, s') → original_file s = Some p ∧ s' = s.
Proof.
  unfold get_original_file. destruct (original_file s); [|done]. by intros [= -> ->].
Qed.

Lemma getitem_ok params key s v s' :
  getitem params key s = (Ok v, s') → params !! key = Some v ∧ s' = s.
Proof.
  unfold getitem. intros [H ->]%lift_ok. by destruct (params !! key) as [x|]; simplify_eq.
Qed.

Lemma check_upload_ok local_md5 reply s u s' :
  check_upload local_md5 reply s = (Ok u, s') →
  local_md5 = remote_md5 (shock_handle reply) ∧ no_shock_id reply = false ∧ s' = s.
Proof.
  unfold check_upload. case_bool_decide as Hmd5; simpl; [|done].
  destruct (no_shock_id reply); [done|]. by intros [= _ ->].
Qed.

Section Construction.

Variable E : env.

(** Lines 405-431: what a returned record says of the upload. *)
Lemma _construct_variation_ok params contigs_info s var s' :
  _construct_variation E params contigs_info s = (Ok var, s') →
  ∃ orig c reply,
    original_file s' = Some orig ∧
    files s' !! orig = Some c ∧
    file_to_shock E orig (Some c) = Ok reply ∧
    md5_hex E c = remote_md5 (shock_handle reply) ∧
    no_shock_id reply = false.
Proof.
  unfold _construct_variation. intros H.
  apply bind_ok_inv in H as (i0 & s0 & _ & H).
  apply bind_ok_inv in H as (u1 & s1 & _ & H).
  apply bind_ok_inv in H as (i1 & s2 & _ & H).
  apply bind_ok_inv in H as (u2 & s3 & _ & H).
  apply bind_ok_inv in H as (orig & s4 & [Horig ->]%get_original_file_ok & H).
  apply bind_ok_inv in H as (u3 & s5 & [= _ <-] & H).
  apply bind_ok_inv in H as (fs & s6 & [= <- <-] & H).
  apply bind_ok_inv in H as (reply & s7 & [Hreply ->]%lift_ok & H).
  apply bind_ok_inv in H as (orig' & s8 & [Horig' ->]%get_original_file_ok & H).
  apply bind_ok_inv in H as (local_md5 & s9 & Hmd5 & H).
  apply bind_ok_inv in H as (u4 & s10 & (Hsum & Hid & ->)%check_upload_ok & H).
  apply bind_ok_inv in H as (i2 & s11 & [_ ->]%get_vcf_info_ok & H).
  apply bind_ok_inv in H as (pop & s12 & [_ ->]%getitem_ok & H).
  apply bind_ok_inv in H as (gen & s13 & [_ ->]%getitem_ok & H).
  apply bind_ok_inv in H as (aref & s14 & [_ ->]%lift_ok & H).
  apply mret_ok in H as [_ ->].
  unfold md5_sum_local_file in Hmd5.
  apply bind_ok_inv in Hmd5 as (c & s15 & [Hc ->]%read_file_ok & [-> ->]%mret_ok).
  simpl in *. simplify_eq. exists orig, c, reply.
  rewrite Hc in Hreply. done.
Qed.

Lemma upload_rejected_accepted s orig c reply :
  original_file s = Some orig →
  files s !! orig = Some c →
  file_to_shock E orig (Some c) = Ok reply →
  md5_hex E c = remote_md5 (shock_handle reply) →
  no_shock_id reply = false →
  ¬ upload_rejected E s.
Proof.
  intros Ho Hc Hr Hmd5 Hid (orig' & reply' & Ho' & Hr' & Hbad).
  rewrite Ho in Ho'. injection Ho' as <-. rewrite Hc in Hr', Hbad.
  rewrite Hr in Hr'. injection Hr' as <-. simpl in Hbad.
  destruct Hbad as [Hbad|Hbad]; congruence.
Qed.

Lemma upload_rejected_same s s' :
  files s' = files s → original_file s' = original_file s →
  upload_rejected E s' → upload_rejected E s.
Proof.
  intros Hf Ho (orig & reply & H1 & H2 & H3). exists orig, reply.
  by rewrite <- Hf, <- Ho.
Qed.

(** No stage before [_save_var_obj] saves. *)
Lemma validate_vcf_not_save params : steps (emits_only not_save) (validate_vcf E params).
Proof.
  unfold validate_vcf, validate_staged, _stage_input, _get_vcf_version, version_of_line,
    validator_cmd_for, popen, interpret, report_vcftools.
  steps_go.
Qed.

Lemma _parse_vcf_data_not_save params :
  steps (emits_only not_save) (_parse_vcf_data E params).
Proof. unfold _parse_vcf_data, _stage_input. steps_go. Qed.

Lemma _validate_assembly_ids_not_save params :
  steps (emits_only not_save) (_validate_assembly_ids E params).
Proof. unfold _validate_assembly_ids, _chk_if_vcf_ids_in_assembly. steps_go. Qed.

Lemma _validate_sample_ids_not_save params :
  steps (emits_only not_save) (_validate_sample_ids E params).
Proof. unfold _validate_sample_ids. steps_go. Qed.

Lemma _construct_contig_info_not_save params :
  steps (emits_only not_save) (_construct_contig_info params).
Proof. unfold _construct_contig_info. steps_go. Qed.

Lemma _construct_variation_not_save params contigs_info :
  steps (emits_only not_save) (_construct_variation E params contigs_info).
Proof. unfold _construct_variation. steps_go. Qed.

(** Saving touches neither the files nor [self.original_file]. *)
Lemma _save_var_obj_keeps_files params var :
  steps (keeps files) (_save_var_obj E params var).
Proof. unfold _save_var_obj. steps_go. Qed.

Lemma _save_var_obj_keeps_original_file params var :
  steps (keeps original_file) (_save_var_obj E params var).
Proof. unfold _save_var_obj. steps_go. Qed.

End Construction.

(** C8. When the reply of the blob storage does not confirm the upload (its
    checksum differs from the md5 computed locally, or it carries no
    identifier), [_construct_variation] raises instead of returning a record,
    and [import_vcf] raises without having called [save_objects]. The reply
    is the one for the original file as it is when the run ends; nothing
    writes that file after the upload. *)
Theorem checksum_mismatch_aborts E params :
  (∀ contigs_info s,
     upload_rejected E (_construct_variation E params contigs_info s).2 →
     is_raise (_construct_variation E params contigs_info s).1 = true) ∧
  (∀ s,
     upload_rejected E (import_vcf E params s).2 →
     is_raise (import_vcf E params s).1 = true ∧
     emits_only not_save s (import_vcf E params s).2).
Proof.
  assert (Hconstruct : ∀ contigs_info s,
    upload_rejected E (_construct_variation E params contigs_info s).2 →
    ∃ e, (_construct_variation E params contigs_info s).1 = Raise e).
  { intros contigs_info s Hrej.
    destruct (_construct_variation E params contigs_info s) as [[var|e] s'] eqn:H;
      [|by exists e].
    apply _construct_variation_ok in H as (orig & c & reply & Ho & Hc & Hr & Hmd5 & Hid).
    by destruct (upload_rejected_accepted E s' orig c reply). }
  split.
  { intros contigs_info s Hrej. by destruct (Hconstruct _ _ Hrej) as [e ->]. }
  intros s. unfold import_vcf.
  pose proof (validate_vcf_not_save E params s) as T1.
  destruct (validate_vcf E params s) as [[fv|e] s1] eqn:H1; simpl in T1;
    [erewrite bind_ok by exact H1 | by erewrite bind_raise by exact H1].
  pose proof (_parse_vcf_data_not_save E params s1) as T2.
  destruct (_parse_vcf_data E params s1) as [[i|e] s2] eqn:H2; simpl in T2;
    [erewrite bind_ok by exact H2
    | erewrite bind_raise by exact H2; intros _; split; [done | by etrans]].
  erewrite bind_ok by reflexivity.
  set (s3 := mk_state (files s2) (trace s2) (Some i) (original_file s2) (uuids s2)).
  assert (T3 : emits_only not_save s s3).
  { etrans; [exact T1|]. etrans; [exact T2|]. exists []. by rewrite app_nil_r. }
  clear T1 T2.
  pose proof (_validate_assembly_ids_not_save E params s3) as T4.
  destruct (_validate_assembly_ids E params s3) as [[ids|e] s4] eqn:H4; simpl in T4;
    [erewrite bind_ok by exact H4
    | erewrite bind_raise by exact H4; intros _; split; [done | by etrans]].
  pose proof (_validate_sample_ids_not_save E params s4) as T5.
  destruct (_validate_sample_ids E params s4) as [[sids|e] s5] eqn:H5; simpl in T5;
    [erewrite bind_ok by exact H5
    | erewrite bind_raise by exact H5; intros _; split; [done | by do 2 (etrans; [eassumption|])]].
  pose proof (_construct_contig_info_not_save params s5) as T6.
  destruct (_construct_contig_info params s5) as [[contigs_info|e] s6] eqn:H6; simpl in T6;
    [erewrite bind_ok by exact H6
    | erewrite bind_raise by exact H6; intros _; split;
      [done | by do 3 (etrans; [eassumption|])]].
  pose proof (_construct_variation_not_save E params contigs_info s6) as T7.
  destruct (_construct_variation E params contigs_info s6) as [[var|e] s7] eqn:H7;
    simpl in T7;
    [erewrite bind_ok by exact H7
    | erewrite bind_raise by exact H7; intros _; split;
      [done | by do 4 (etrans; [eassumption|])]].
  intros Hrej. exfalso.
  destruct (Hconstruct contigs_info s6) as [e He]; [|by rewrite H7 in He].
  rewrite H7. simpl. revert Hrej. apply upload_rejected_same.
  - pose proof (_save_var_obj_keeps_files E params (Some var) s7) as K.
    unfold mbind, M_bind. by destruct (_save_var_obj E params (Some var) s7) as [[o|e] s8].
  - pose proof (_save_var_obj_keeps_original_file E params (Some var) s7) as K.
    unfold mbind, M_bind. by destruct (_save_var_obj E params (Some var) s7) as [[o|e] s8].
Qed.

Lemma checksum_mismatch_aborts_witness :
  let sc := Fixture.with_storage (Fixture.good "VCFv4.2") (λ _, "0123") (Some "shock-1") in
  let r := import_vcf (Fixture.world sc) Fixture.params (Fixture.start sc) in
  (is_raise r.1 = true ∧ emits_only not_save (Fixture.start sc) r.2) ∧
  r.1 = Raise (ValueError ("Local md5 md5:" +:+ Fixture.text sc
                           +:+ " does not match shock md5 0123")).
Proof.
  intros sc r. split; [|vm_compute; reflexivity].
  apply (proj2 (checksum_mismatch_aborts (Fixture.world sc) Fixture.params)).
  exists "/kb/module/work/tmp/original_sample.vcf",
    {| shock_id := Some "shock-1";
       shock_handle := {| hid := "KBH_1"; remote_md5 := "0123" |} |}.
  split_and!.
  - vm_compute. reflexivity.
  - vm_compute. reflexivity.
  - left. vm_compute. discriminate.
Defined.

(** The same when the storage allocates no identifier. *)
Example missing_shock_id_aborts :
  let sc := Fixture.with_storage (Fixture.good "VCFv4.2") (λ c, "md5:" +:+ c) (Some "") in
  let r := import_vcf (Fixture.world sc) Fixture.params (Fixture.start sc) in
  r.1 = Raise (ValueError "Unable to upload VCF to Shock!") ∧
  Forall not_save (trace r.2).
Proof.
  vm_compute. split; [reflexivity|].
  repeat (apply Forall_cons; split; [by intros []|]). apply Forall_nil_2.
Qed.

(** ** The advisory checks *)

Section Advisory.

Variable E : env.

(** Lines 291-318, when the workspace answers: the set of the assembly is
    returned whatever the check finds; the state changes by [assembly_ref]
    and by the lines printed. *)
Lemma _validate_assembly_ids_spec params s i genome aref contigs :
  vcf_info s = Some i →
  params !! "genome_ref" = Some genome →
  ws_assembly_ref E genome = Ok aref →
  ws_contigs E aref = Ok contigs →
  _validate_assembly_ids E params s
  = (Ok contigs,
     mk_state (files s)
       (trace s
        ++ [EvGetObjectSubset "/assembly_ref" genome; EvGetObjectSubset "/contigs" aref;
            EvPrint [Lst contigs]]
        ++ assembly_warning (chk_of_list (not_in (Info.chromosome_ids i) contigs)))
       (Some (with_assembly_ref i aref)) (original_file s) (uuids s)).
Proof.
  intros Hi Hg Ha Hc.
  unfold _validate_assembly_ids, _chk_if_vcf_ids_in_assembly, getitem, print.
  rewrite Hg. rewrite lift_bind.
  erewrite bind_ok; [|reflexivity]. rewrite Ha, lift_bind.
  erewrite bind_ok; [|unfold get_vcf_info; cbn [vcf_info]; rewrite Hi; reflexivity].
  erewrite bind_ok; [|reflexivity].
  erewrite bind_ok; [|reflexivity].
  rewrite Hc, lift_bind.
  erewrite bind_ok; [|reflexivity].
  destruct (chk_of_list (not_in (Info.chromosome_ids i) contigs)) as [|ids];
    repeat (erewrite bind_ok; [|reflexivity]);
    unfold mret, M_ret, with_assembly_ref;
    cbn [assembly_warning files trace vcf_info original_file uuids];
    rewrite <- ?app_assoc, ?app_nil_r; reflexivity.
Qed.

(** Lines 320-338, when the workspace answers. *)
Lemma _validate_sample_ids_spec params s i sref samples :
  vcf_info s = Some i →
  params !! "sample_attribute_ref" = Some sref →
  ws_instances E sref = Ok samples →
  _validate_sample_ids E params s
  = (Ok samples,
     mk_state (files s)
       (trace s
        ++ [EvGetObjectSubset "/instances" sref]
        ++ sample_warning (_validate_vcf_to_sample (Info.genotype_ids i) samples))
       (vcf_info s) (original_file s) (uuids s)).
Proof.
  intros Hi Hp Hs.
  unfold _validate_sample_ids, getitem, print.
  erewrite bind_ok; [|unfold get_vcf_info; rewrite Hi; reflexivity].
  rewrite Hp, lift_bind.
  erewrite bind_ok; [|reflexivity]. rewrite Hs, lift_bind.
  destruct (_validate_vcf_to_sample (Info.genotype_ids i) samples) as [|ids];
    repeat (erewrite bind_ok; [|reflexivity]);
    unfold mret, M_ret;
    cbn [sample_warning files trace vcf_info original_file uuids];
    rewrite <- ?app_assoc, ?app_nil_r; reflexivity.
Qed.

End Advisory.

(** C9. Neither check raises on unresolved identifiers. When the workspace
    answers, [_validate_assembly_ids] and [_validate_sample_ids] return the
    identifiers of the assembly and of the samples whatever the result of
    the comparison; unresolved identifiers only add a printed line to the
    trace; and [import_vcf] goes on with the construction of the record from
    the state the checks leave. *)
Theorem checks_are_advisory E params s0 fv s1 i s2 genome aref contigs sref samples :
  validate_vcf E params s0 = (Ok fv, s1) →
  _parse_vcf_data E params s1 = (Ok i, s2) →
  params !! "genome_ref" = Some genome →
  ws_assembly_ref E genome = Ok aref →
  ws_contigs E aref = Ok contigs →
  params !! "sample_attribute_ref" = Some sref →
  ws_instances E sref = Ok samples →
  let s3 := mk_state (files s2) (trace s2) (Some i) (original_file s2) (uuids s2) in
  let s4 :=
    mk_state (files s2)
      (trace s2
       ++ [EvGetObjectSubset "/assembly_ref" genome; EvGetObjectSubset "/contigs" aref;
           EvPrint [Lst contigs]]
       ++ assembly_warning (chk_of_list (not_in (Info.chromosome_ids i) contigs)))
      (Some (with_assembly_ref i aref)) (original_file s2) (uuids s2) in
  let s5 :=
    mk_state (files s2)
      (trace s4
       ++ [EvGetObjectSubset "/instances" sref]
       ++ sample_warning (_validate_vcf_to_sample (Info.genotype_ids i) samples))
      (Some (with_assembly_ref i aref)) (original_file s2) (uuids s2) in
  _validate_assembly_ids E params s3 = (Ok contigs, s4) ∧
  _validate_sample_ids E params s4 = (Ok samples, s5) ∧
  import_vcf E params s0 = construct_and_save E params s5.
Proof.
  intros H1 H2 Hg Ha Hc Hp Hs s3 s4 s5.
  assert (H4 : _validate_assembly_ids E params s3 = (Ok contigs, s4)).
  { by rewrite (_validate_assembly_ids_spec E params s3 i genome aref contigs). }
  assert (H5 : _validate_sample_ids E params s4 = (Ok samples, s5)).
  { by rewrite (_validate_sample_ids_spec E params s4 (with_assembly_ref i aref) sref samples). }
  split_and!; [done..|].
  unfold import_vcf.
  erewrite bind_ok; [|exact H1].
  erewrite bind_ok; [|exact H2].
  erewrite bind_ok; [|reflexivity].
  erewrite bind_ok; [|exact H4].
  erewrite bind_ok; [|exact H5].
  reflexivity.
Qed.

Lemma checks_are_advisory_witness :
  let sc := Fixture.with_references (Fixture.good "VCFv4.2") ["1"] ["other"] in
  let r := import_vcf (Fixture.world sc) Fixture.params (Fixture.start sc) in
  is_raise r.1 = false ∧
  EvPrint [Str "VCF contig ids: 2 are not present in assembly."] ∈ trace r.2 ∧
  EvPrint [Str "VCF genotypes: SAMPLE_X are not present in sample attribute mapping."]
    ∈ trace r.2.
Proof.
  intros sc r. subst r.
  destruct (validate_vcf (Fixture.world sc) Fixture.params (Fixture.start sc))
    as [[fv|e] s1] eqn:H1; [|vm_compute in H1; discriminate H1].
  destruct (_parse_vcf_data (Fixture.world sc) Fixture.params s1) as [[i|e] s2] eqn:H2.
  - destruct (checks_are_advisory (Fixture.world sc) Fixture.params (Fixture.start sc)
                fv s1 i s2 "1/2/3" "1/2/3/assembly" ["1"] "1/4/1" ["other"]
                H1 H2 eq_refl eq_refl eq_refl eq_refl eq_refl) as (_ & _ & ->).
    vm_compute in H1. injection H1 as <- <-.
    vm_compute in H2. injection H2 as <- <-.
    vm_compute. split_and!; [reflexivity | repeat constructor..].
  - vm_compute in H1. injection H1 as <- <-. vm_compute in H2. discriminate H2.
Defined.

(** * Further properties *)

(** ** What the parser records *)

Section Recorded.

Implicit Types (rs : list vcf_record) (r : vcf_record) (d : Dict.t Contig.t).

Lemma first_record_snoc k rs r :
  first_record k (rs ++ [r])
  = match first_record k rs with
    | Some r0 => Some r0
    | None => if decide (CHROM r = k) then Some r else None
    end.
Proof.
  unfold first_record. rewrite filter_app, filter_cons, filter_nil.
  destruct (filter (λ r0, CHROM r0 = k) rs) as [|r0 l]; simpl; [|done].
  by case_decide.
Qed.

Lemma first_record_None k rs : count_records k rs = 0 → first_record k rs = None.
Proof.
  unfold count_records, first_record.
  destruct (filter (λ r, CHROM r = k) rs); simpl; [done | lia].
Qed.

Lemma entry_of_first_step rs r d :
  loop_inv rs d →
  Forall (entry_of_first rs) d →
  Forall (entry_of_first (rs ++ [r])) (Loop.contigs_step r d).
Proof.
  intros (Hnd & _ & Hnone) Hall. unfold Loop.contigs_step.
  assert (Hother : ∀ k' c', k' ≠ CHROM r →
            entry_of_first rs (k', c') → entry_of_first (rs ++ [r]) (k', c')).
  { intros k' c' Hne [Hid Hlen]. split; [done|]. simpl in *.
    rewrite first_record_snoc. destruct (first_record k' rs); [done|].
    by rewrite decide_False. }
  destruct (Dict.get (CHROM r) d) as [c|] eqn:Hget.
  - apply (Forall_set (entry_of_first rs)); [done..| |done].
    apply get_Some_elem in Hget. eapply Forall_forall in Hall as [Hid Hlen]; [|done].
    simpl in *. split.
    + unfold Loop.add_pass. by destruct (not_FILTER r).
    + simpl. rewrite first_record_snoc.
      destruct (first_record (CHROM r) rs) as [r0|]; [|done].
      unfold Loop.add_pass. by destruct (not_FILTER r).
  - apply (Forall_set (entry_of_first rs)); [done..| |done].
    split; [done|]. simpl. rewrite first_record_snoc.
    rewrite first_record_None by auto. by rewrite decide_True.
Qed.

Lemma entry_of_first_run rs :
  Forall (entry_of_first rs) (Loop.contigs (Loop.run rs)).
Proof.
  induction rs as [|r rs IH] using rev_ind; [by apply Forall_nil_2|].
  rewrite run_snoc. apply entry_of_first_step; [apply loop_inv_run | done].
Qed.

Lemma NoDup_chromosomes rs : NoDup (Loop.chromosomes (Loop.run rs)).
Proof. rewrite chromosomes_keys. apply loop_inv_run. Qed.

(** A contig is listed as soon as one record names it, and only then. *)
Lemma elem_of_chromosomes k rs :
  k ∈ Loop.chromosomes (Loop.run rs) ↔ ∃ r, r ∈ rs ∧ CHROM r = k.
Proof.
  rewrite chromosomes_keys. destruct (loop_inv_run rs) as (_ & Hall & Hnone).
  split.
  - intros Hk. destruct (first_record k rs) as [r|] eqn:Hr.
    + unfold first_record in Hr. apply head_Some_elem_of in Hr.
      apply list_elem_of_filter in Hr as [? ?]. eauto.
    + exfalso. apply list_elem_of_fmap in Hk as ([k' c] & -> & Hin).
      eapply Forall_forall in Hall as [Ht _]; [|done]. simpl in *.
      pose proof (entry_of_first_run rs) as Hf.
      eapply Forall_forall in Hf as [_ Hlen]; [|done]. simpl in Hlen.
      by rewrite Hr in Hlen.
  - intros (r & Hin & <-). apply dec_stable. intros Hn%get_None_keys%Hnone.
    unfold count_records in Hn.
    assert (r ∈ filter (λ r0, CHROM r0 = CHROM r) rs) as Hf
      by by apply list_elem_of_filter.
    destruct (filter (λ r0, CHROM r0 = CHROM r) rs); [by inversion Hf | simpl in Hn; lia].
Qed.

Lemma get_elem {V} k (v : V) (d : Dict.t V) :
  NoDup (Dict.keys d) → (k, v) ∈ d → Dict.get k d = Some v.
Proof.
  unfold Dict.keys. induction d as [|[k' v'] d IH]; [by inversion 2|].
  csimpl. intros [Hk Hnd]%NoDup_cons [[= -> ->]|Hin]%elem_of_cons.
  - by rewrite decide_True.
  - rewrite decide_False; [by apply IH|].
    intros ->. apply Hk. apply list_elem_of_fmap. by exists (k', v).
Qed.

(** Looking the keys up in order gives the values in order. *)
Lemma omap_get_keys {V} (d : Dict.t V) :
  NoDup (Dict.keys d) → omap (λ k, Dict.get k d) (Dict.keys d) = Dict.values d.
Proof.
  intros Hnd. unfold Dict.keys, Dict.values.
  transitivity (omap (λ kv : string * V, Some kv.2) d).
  - apply list_omap_ext. apply Forall2_fmap_l, Forall_Forall2_diag.
    apply Forall_forall. intros [k v] Hin. simpl. by apply get_elem.
  - clear Hnd. induction d as [|[k v] d IH]; [done|]. csimpl. by f_equal.
Qed.

End Recorded.

Lemma _parse_vcf_data_reader E params s info s' :
  _parse_vcf_data E params s = (Ok info, s') →
  ∃ path text reader,
    _stage_input E params s = (Ok path, s') ∧
    files s' !! path = Some text ∧
    Reader E text = Ok reader ∧
    Info.contigs info = Loop.contigs (Loop.run (records reader)) ∧
    Info.total_variants info = Loop.totalvars (Loop.run (records reader)) ∧
    Info.chromosome_ids info = Loop.chromosomes (Loop.run (records reader)).
Proof.
  unfold _parse_vcf_data. intros H.
  apply bind_ok_inv in H as (path & s1 & Hstage & H).
  apply bind_ok_inv in H as (text & s2 & [Hread ->]%read_file_ok & H).
  apply bind_ok_inv in H as (reader & s3 & [= Hreader <-] & H).
  injection H as H <-. apply parse_reader_inv in H as (? & ? & ? & _).
  by exists path, text, reader.
Qed.

(** X1. When [_parse_vcf_data] returns, [total_variants] is the number of
    records the reader yields for the staged file, and a contig is in
    [chromosome_ids] exactly when one of these records lies on it. *)
Theorem total_variants_counts_records E params s info s' :
  _parse_vcf_data E params s = (Ok info, s') →
  ∃ path text reader,
    _stage_input E params s = (Ok path, s') ∧
    files s' !! path = Some text ∧
    Reader E text = Ok reader ∧
    Info.total_variants info = Z.of_nat (length (records reader)) ∧
    ∀ k, k ∈ Info.chromosome_ids info ↔ ∃ r, r ∈ records reader ∧ CHROM r = k.
Proof.
  intros H. apply _parse_vcf_data_reader in H
    as (path & text & reader & Hs & Hf & Hr & _ & Ht & Hc).
  exists path, text, reader. split_and!; [done.. | |].
  - rewrite Ht. apply totalvars_run.
  - intros k. rewrite Hc. apply elem_of_chromosomes.
Qed.

Lemma total_variants_counts_records_witness :
  let sc := Fixture.good "VCFv4.2" in
  match _parse_vcf_data (Fixture.world sc) Fixture.params (Fixture.start sc) with
  | (Ok info, _) =>
      Info.total_variants info = 5 ∧
      ∀ k, k ∈ Info.chromosome_ids info ↔ ∃ r, r ∈ Fixture.body sc ∧ CHROM r = k
  | (Raise _, _) => False
  end.
Proof.
  intros sc.
  destruct (_parse_vcf_data _ _ _) as [[info|e] s'] eqn:H.
  - destruct (total_variants_counts_records _ _ _ _ _ H)
      as (path & text & reader & Hs & Hf & Hr & Ht & Hc).
    vm_compute in Hs. injection Hs as <- <-.
    vm_compute in Hf. injection Hf as <-.
    vm_compute in Hr. injection Hr as <-. by split.
  - vm_compute in H. discriminate H.
Defined.

(** X2. When [_parse_vcf_data] returns, [chromosome_ids] lists the keys of
    [contigs] in their order, each once. *)
Theorem chromosome_ids_are_the_contig_keys E params s info s' :
  _parse_vcf_data E params s = (Ok info, s') →
  Info.chromosome_ids info = Dict.keys (Info.contigs info) ∧
  NoDup (Info.chromosome_ids info).
Proof.
  intros H. apply _parse_vcf_data_reader in H
    as (path & text & reader & _ & _ & _ & Hd & _ & Hc).
  rewrite Hc, Hd. split; [apply chromosomes_keys | apply NoDup_chromosomes].
Qed.

Lemma chromosome_ids_are_the_contig_keys_witness :
  let sc := Fixture.good "VCFv4.2" in
  match _parse_vcf_data (Fixture.world sc) Fixture.params (Fixture.start sc) with
  | (Ok info, _) =>
      Info.chromosome_ids info = ["1"; "2"] ∧
      Info.chromosome_ids info = Dict.keys (Info.contigs info) ∧
      NoDup (Info.chromosome_ids info)
  | (Raise _, _) => False
  end.
Proof.
  intros sc.
  destruct (_parse_vcf_data _ _ _) as [[info|e] s'] eqn:H.
  - split; [|exact (chromosome_ids_are_the_contig_keys _ _ _ _ _ H)].
    vm_compute in H. injection H as Hinfo Hst. by rewrite <- Hinfo.
  - vm_compute in H. discriminate H.
Defined.

(** X3. When [_parse_vcf_data] returns, the entry of every contig carries
    the name of the contig as [contig_id], and its [length] is
    [affected_end - affected_start] of the first record of that contig;
    later records of the contig do not change it. *)
Theorem contig_length_of_first_record E params s info s' :
  _parse_vcf_data E params s = (Ok info, s') →
  ∃ path text reader,
    _stage_input E params s = (Ok path, s') ∧
    files s' !! path = Some text ∧
    Reader E text = Ok reader ∧
    Forall (entry_of_first (records reader)) (Info.contigs info).
Proof.
  intros H. apply _parse_vcf_data_reader in H
    as (path & text & reader & Hs & Hf & Hr & Hd & _ & _).
  exists path, text, reader. split_and!; [done..|].
  rewrite Hd. apply entry_of_first_run.
Qed.

Lemma contig_length_of_first_record_witness :
  let sc := Fixture.good "VCFv4.2" in
  match _parse_vcf_data (Fixture.world sc) Fixture.params (Fixture.start sc) with
  | (Ok info, _) => Forall (entry_of_first (Fixture.body sc)) (Info.contigs info)
  | (Raise _, _) => False
  end.
Proof.
  intros sc.
  destruct (_parse_vcf_data _ _ _) as [[info|e] s'] eqn:H.
  - destruct (contig_length_of_first_record _ _ _ _ _ H)
      as (path & text & reader & Hs & Hf & Hr & Hall).
    vm_compute in Hs. injection Hs as <- <-.
    vm_compute in Hf. injection Hf as <-.
    vm_compute in Hr. injection Hr as <-. exact Hall.
  - vm_compute in H. discriminate H.
Defined.

Lemma contig_ids_of_values rs :
  Contig.contig_id <$> Dict.values (Loop.contigs (Loop.run rs))
  = Dict.keys (Loop.contigs (Loop.run rs)).
Proof.
  pose proof (entry_of_first_run rs) as H. unfold Dict.values, Dict.keys.
  induction H as [|[k c] d [Hid _] _ IH]; [done|]. csimpl. by f_equal.
Qed.

(** X4. After a parse, [_construct_contig_info] returns one entry per
    contig, in the order of [chromosome_ids] (first seen first), and changes
    nothing; this holds for any state that holds the parsed [contigs],
    whatever the other fields of [vcf_info] have become. *)
Theorem contig_info_follows_chromosome_ids E params s info s' params' s2 i :
  _parse_vcf_data E params s = (Ok info, s') →
  vcf_info s2 = Some i →
  Info.contigs i = Info.contigs info →
  ∃ contigs_info,
    _construct_contig_info params' s2 = (Ok contigs_info, s2) ∧
    Contig.contig_id <$> contigs_info = Info.chromosome_ids info.
Proof.
  intros H Hi Hc. apply _parse_vcf_data_reader in H
    as (path & text & reader & _ & _ & _ & Hd & _ & Hk).
  exists (Dict.values (Info.contigs i)). split.
  - unfold _construct_contig_info.
    erewrite bind_ok; [|unfold get_vcf_info; rewrite Hi; reflexivity].
    rewrite omap_get_keys; [done|]. rewrite Hc, Hd. apply loop_inv_run.
  - rewrite Hc, Hd, Hk, chromosomes_keys. apply contig_ids_of_values.
Qed.

Lemma contig_info_follows_chromosome_ids_witness :
  let sc := Fixture.good "VCFv4.2" in
  match _parse_vcf_data (Fixture.world sc) Fixture.params (Fixture.start sc) with
  | (Ok info, s') =>
      ∃ contigs_info,
        _construct_contig_info Fixture.params (set_vcf_info info s').2
        = (Ok contigs_info, (set_vcf_info info s').2) ∧
        Contig.contig_id <$> contigs_info = Info.chromosome_ids info
  | (Raise _, _) => False
  end.
Proof.
  intros sc.
  destruct (_parse_vcf_data _ _ _) as [[info|e] s'] eqn:H.
  - exact (contig_info_follows_chromosome_ids _ _ _ _ _ Fixture.params
             (set_vcf_info info s').2 info H eq_refl eq_refl).
  - vm_compute in H. discriminate H.
Defined.

(** ** Normal forms of identifiers *)

Section Normal.

Implicit Types (c : ascii) (l : list ascii) (p : ascii → bool).











End Normal.



(** X6. The assembly check answers "all resolved" exactly when every
    chromosome identifier of the file is, as written, an identifier of the
    assembly; what it reports keeps the order of the file; and the check
    itself only prints the identifiers of the assembly. *)
Theorem assembly_check_resolves_subsets
    (vcf_chromosomes assembly_chromosomes : list string) (s : state) :
  ∃ r,
    _chk_if_vcf_ids_in_assembly vcf_chromosomes assembly_chromosomes s
    = (Ok r, mk_state (files s) (trace s ++ [EvPrint [Lst assembly_chromosomes]])
                      (vcf_info s) (original_file s) (uuids s)) ∧
    (r = AllResolved ↔ ∀ x, x ∈ vcf_chromosomes → x ∈ assembly_chromosomes) ∧
    reported r `sublist_of` vcf_chromosomes.
Proof.
  eexists. split; [reflexivity|]. rewrite reported_chk_of_list. split.
  - split.
    + intros H x Hx. apply dec_stable. intros Hn.
      assert (Hin : x ∈ not_in vcf_chromosomes assembly_chromosomes)
        by by apply elem_of_not_in.
      destruct (not_in vcf_chromosomes assembly_chromosomes); [by inversion Hin | done].
    + intros H. destruct (not_in vcf_chromosomes assembly_chromosomes) as [|y l] eqn:Hl;
        [done|]. exfalso.
      assert (Hy : y ∈ not_in vcf_chromosomes assembly_chromosomes) by (rewrite Hl; left).
      apply elem_of_not_in in Hy as [Hy Hn]. by apply Hn, H.
  - apply sublist_filter.
Qed.

Lemma assembly_check_resolves_subsets_witness :
  ∃ s', _chk_if_vcf_ids_in_assembly ["1"; "2"] ["1"; "2"; "3"]
          (Fixture.start (Fixture.good "VCFv4.2")) = (Ok AllResolved, s').
Proof.
  destruct (assembly_check_resolves_subsets ["1"; "2"] ["1"; "2"; "3"]
              (Fixture.start (Fixture.good "VCFv4.2"))) as (r & Hr & Hall & _).
  eexists. rewrite Hr. f_equal. f_equal. apply Hall.
  intros x [->|Hx]%elem_of_cons; [compute_done|].
  apply list_elem_of_singleton in Hx as ->. compute_done.
Defined.

(** ** Staging *)



(** X8. An input that is found, is not compressed and is not its own
    backup is returned as it is (the staged path is the path of the input
    itself); its content is copied to [original_<name>] under the scratch
    area, that copy becomes [self.original_file], and the only other effect
    is one printed line. *)
Theorem staging_plain_input E params s p c :
  params !! "vcf_staging_file_path" = Some p →
  Py.startswith p "/kb/module/test/" && Py.endswith p ".gz" = false →
  files s !! local_path p = Some c →
  take 2 (Py.chars c) ≠ ["031"%char; "139"%char] →
  local_path p ≠ original_path E (local_path p) →
  _stage_input E params s
  = (Ok (local_path p),
     mk_state (<[original_path E (local_path p) := c]> (files s))
       (trace s ++ [EvPrint [Str ("VCF: " +:+ local_path p +:+ " Orig: "
                                  +:+ original_path E (local_path p))]])
       (vcf_info s) (Some (original_path E (local_path p))) (uuids s)).
Proof.
  intros Hp Hb Hf Hgz Hne. unfold _stage_input.
  erewrite bind_ok; [|unfold getitem, lift; rewrite Hp; reflexivity].
  rewrite (bind_ok _ _ s (local_path p) s).
  2: { unfold local_path. destruct (Py.startswith p _); [|done].
       simpl in Hb. by rewrite Hb. }
  erewrite bind_ok; [|apply exists_spec].
  rewrite Hf. rewrite bool_decide_true by eauto. cbn [negb]. fold (original_path E (local_path p)).
  erewrite bind_ok; [|reflexivity].
  erewrite bind_ok.
  2: { unfold copy. erewrite bind_ok; [|rewrite read_file_spec; cbn [files]; rewrite Hf; reflexivity].
       rewrite bool_decide_false by done. reflexivity. }
  erewrite bind_ok; [|reflexivity].
  erewrite bind_ok.
  2: { rewrite is_gz_file_spec. cbn [files].
       rewrite lookup_insert_ne by (intros Heq; by apply Hne). rewrite Hf. reflexivity. }
  by rewrite bool_decide_false.
Qed.

Lemma staging_plain_input_witness :
  let sc := Fixture.good "VCFv4.2" in
  let r := _stage_input (Fixture.world sc) Fixture.params (Fixture.start sc) in
  r.1 = Ok Fixture.vcf_path ∧
  original_file r.2 = Some "/kb/module/work/tmp/original_sample.vcf" ∧
  files r.2 !! "/kb/module/work/tmp/original_sample.vcf" = Some (Fixture.text sc).
Proof.
  intros sc r. subst r.
  rewrite (staging_plain_input (Fixture.world sc) Fixture.params (Fixture.start sc)
             Fixture.vcf_path (Fixture.text sc)).
  - split_and!; [reflexivity | reflexivity | apply lookup_insert_eq].
  - reflexivity.
  - reflexivity.
  - reflexivity.
  - compute_done.
  - compute_done.
Defined.


(** ** The declared version *)

Lemma ten_cases (P : nat → Prop) :
  P 0%nat → P 1%nat → P 2%nat → P 3%nat → P 4%nat → P 5%nat → P 6%nat → P 7%nat →
  P 8%nat → P 9%nat → ∀ d, (d < 10)%nat → P d.
Proof.
  intros ? ? ? ? ? ? ? ? ? ? d Hd.
  do 10 (destruct d as [|d]; [assumption|]). lia.
Qed.

(** X9. For a file that is not compressed and whose first line is
    [##fileformat=VCFv<d>.<m>] with one-digit [d] and [m], ended by a line
    feed, a carriage return and line feed, or a carriage return,
    [_get_vcf_version] returns the decimal [d.m] and changes nothing. *)
Theorem declared_version_is_read E path s d m eol rest :
  (d < 10)%nat → (m < 10)%nat → eol ∈ line_ends →
  files s !! path = Some (declares d m eol rest) →
  _get_vcf_version E path s = (Ok (Fin (Qred (Z.of_nat (10 * d + m) # 10))), s).
Proof.
  intros Hd Hm Heol Hf.
  rewrite (_get_vcf_version_plain E path s (declares d m eol rest) Hf).
  2: { vm_compute. discriminate. }
  clear Hf. revert m Hm. apply ten_cases; revert d Hd; apply ten_cases;
    unfold line_ends in Heol;
    repeat (apply elem_of_cons in Heol as [->|Heol]);
    try (by apply elem_of_nil in Heol); vm_compute; reflexivity.
Qed.

Lemma declared_version_is_read_witness :
  let s := mk_state {[ Fixture.vcf_path := declares 4 3 (String "013"%char nl) "#CHROM" ]}
             [] None None 0 in
  _get_vcf_version (Fixture.world (Fixture.good "")) Fixture.vcf_path s
  = (Ok (Fin (43 # 10)), s).
Proof.
  intros s.
  apply (declared_version_is_read _ _ _ 4 3 (String "013"%char nl) "#CHROM").
  - lia.
  - lia.
  - compute_done.
  - reflexivity.
Defined.

(** X10. When the same line is the whole file, without line end, the four
    characters converted are [v<d>.<m>], and [_get_vcf_version] raises the
    [ValueError] of [float]. *)
Theorem declared_version_without_line_end E path s d m :
  (d < 10)%nat → (m < 10)%nat →
  files s !! path = Some (declares d m "" "") →
  _get_vcf_version E path s
  = (Raise (ValueError "could not convert string to float"), s).
Proof.
  intros Hd Hm Hf.
  rewrite (_get_vcf_version_plain E path s (declares d m "" "") Hf).
  2: { vm_compute. discriminate. }
  clear Hf. revert m Hm. apply ten_cases; revert d Hd; apply ten_cases;
    vm_compute; reflexivity.
Qed.

Lemma declared_version_without_line_end_witness :
  let s := mk_state {[ Fixture.vcf_path := "##fileformat=VCFv4.2" ]} [] None None 0 in
  _get_vcf_version (Fixture.world (Fixture.good "")) Fixture.vcf_path s
  = (Raise (ValueError "could not convert string to float"), s).
Proof.
  intros s. apply (declared_version_without_line_end _ _ _ 4 2); [lia | lia | reflexivity].
Defined.

(** ** The verdict *)





(** ** The report of a validation *)




(** ** The return code *)

Lemma same_outcome_bind {A B} (m : M A) (f g : A → M B) s :
  (∀ a s1, same_outcome (f a s1) (g a s1)) →
  same_outcome ((m ≫= f) s) ((m ≫= g) s).
Proof.
  intros H. unfold mbind, M_bind. destruct (m s) as [[a|e] s1]; [apply H | done].
Qed.

(** X14. The return code of the validator decides nothing: with any other
    return code, what [validate_vcf] does from line 150 on ends with the same
    path or the same exception, and with the same files. *)
Theorem return_code_is_ignored E (f : Z → Z) path v s :
  same_outcome (validate_staged E path v s)
               (validate_staged (with_returncode E f) path v s).
Proof.
  unfold validate_staged.
  change (fresh_uuid (with_returncode E f)) with (fresh_uuid E).
  change (scratch (with_returncode E f)) with (scratch E).
  apply same_outcome_bind. intros u s1.
  apply same_outcome_bind. intros [] s2.
  apply same_outcome_bind. intros cmd s3.
  apply same_outcome_bind. intros [] s4.
  destruct (run_validator E cmd (files s4)) as [[out fs'] rc] eqn:Hrun.
  erewrite (bind_ok (popen E cmd)); [|rewrite popen_spec, Hrun; reflexivity].
  erewrite (bind_ok (popen (with_returncode E f) cmd)).
  2: { rewrite popen_spec. cbn [run_validator with_returncode]. rewrite Hrun. reflexivity. }
  cbv beta iota.
  apply same_outcome_bind. intros name s5.
  apply same_outcome_bind. intros ex s6.
  destruct (negb ex); by split.
Qed.

Lemma return_code_is_ignored_witness :
  let sc := Fixture.good "VCFv4.2" in
  let r := validate_staged (with_returncode (Fixture.world sc) (λ _, 1))
             Fixture.vcf_path (Fin (21 # 5)) (Fixture.start sc) in
  r.1 = Ok Fixture.summary_path ∧
  EvLog [Str "Return code from validator "; Int 1] ∈ trace r.2.
Proof.
  intros sc r. split.
  - destruct (return_code_is_ignored (Fixture.world sc) (λ _, 1) Fixture.vcf_path
                (Fin (21 # 5)) (Fixture.start sc)) as [H _].
    subst r. rewrite H. vm_compute. reflexivity.
  - vm_compute. repeat constructor.
Defined.

(** ** A completed import *)

Lemma saved_app t1 t2 : saved (t1 ++ t2) = saved t1 ++ saved t2.
Proof. apply omap_app. Qed.

Lemma saved_not_save evs : Forall not_save evs → saved evs = [].
Proof.
  induction 1 as [|ev evs Hev _ IH]; [done|]. unfold saved in *.
  destruct ev; try (exfalso; by apply Hev); csimpl; exact IH.
Qed.

Lemma saved_steps {A} (m : M A) s :
  steps (emits_only not_save) m → saved (trace (m s).2) = saved (trace s).
Proof.
  intros Hm. destruct (Hm s) as (evs & -> & Hall).
  rewrite saved_app, (saved_not_save evs) by done. by rewrite app_nil_r.
Qed.

Section Completed.

Variable E : env.

(** A save that returns has handed the record over once, under the name of
    lines 455-458. *)
Lemma _save_var_obj_ok params var s o s' :
  _save_var_obj E params (Some var) s = (Ok o, s') →
  saved (trace s') = saved (trace s) ++ [(object_name E params (uuids s), var)].
Proof.
  unfold _save_var_obj, object_name. intros H.
  apply bind_ok_inv in H as ([] & s1 & [= <-] & H).
  apply bind_ok_inv in H as (name & s2 & Hname & H).
  apply bind_ok_inv in H as (ws & s3 & [_ ->]%getitem_ok & H).
  apply bind_ok_inv in H as ([] & s4 & [= <-] & H).
  apply bind_ok_inv in H as (id & s5 & [_ ->]%lift_ok & H).
  apply bind_ok_inv in H as ([] & s6 & [= <-] & H).
  apply lift_ok in H as [_ ->].
  assert (Hn : name = match params !! "variation_object_name" with
                      | Some n => n
                      | None => "variation_" +:+ uuid4 E (uuids s)
                      end ∧ trace s2 = trace s ++ [EvPrint [Str ("Saving Variation to workspace..." +:+ nl)]]).
  { case_bool_decide as Hdom; cbn [negb] in Hname.
    - apply getitem_ok in Hname as [-> ->]. done.
    - apply not_elem_of_dom in Hdom. rewrite Hdom.
      apply bind_ok_inv in Hname as (u & s7 & [= <- <-] & [= <- <-]). done. }
  destruct Hn as [-> Ht]. cbn [trace]. rewrite !saved_app, Ht, !saved_app.
  cbn. by rewrite !app_nil_r.
Qed.

Lemma import_vcf_ok params s o var s' :
  import_vcf E params s = (Ok (o, var), s') →
  ∃ fv s1 i s2 ids s4 sids s5 contigs_info s6 s7,
    validate_vcf E params s = (Ok fv, s1) ∧
    _parse_vcf_data E params s1 = (Ok i, s2) ∧
    _validate_assembly_ids E params (set_vcf_info i s2).2 = (Ok ids, s4) ∧
    _validate_sample_ids E params s4 = (Ok sids, s5) ∧
    _construct_contig_info params s5 = (Ok contigs_info, s6) ∧
    _construct_variation E params contigs_info s6 = (Ok var, s7) ∧
    _save_var_obj E params (Some var) s7 = (Ok o, s').
Proof.
  unfold import_vcf. intros H.
  apply bind_ok_inv in H as (fv & s1 & H1 & H).
  apply bind_ok_inv in H as (i & s2 & H2 & H).
  apply bind_ok_inv in H as ([] & s3 & [= <-] & H).
  apply bind_ok_inv in H as (ids & s4 & H4 & H).
  apply bind_ok_inv in H as (sids & s5 & H5 & H).
  apply bind_ok_inv in H as (contigs_info & s6 & H6 & H).
  apply bind_ok_inv in H as (var' & s7 & H7 & H).
  apply bind_ok_inv in H as (o' & s8 & H8 & [= <- <- <-]).
  by exists fv, s1, i, s2, ids, s4, sids, s5, contigs_info, s6, s7.
Qed.

End Completed.

(** X15. When [import_vcf] returns an object info and a record, exactly one
    record has been handed to [save_objects] during the run: the record it
    returns, under [variation_object_name] when [params] gives one and under
    [variation_<uuid>] otherwise. *)
Theorem import_saves_what_it_returns E params s o var s' :
  import_vcf E params s = (Ok (o, var), s') →
  ∃ n, saved (trace s') = saved (trace s) ++ [(object_name E params n, var)].
Proof.
  intros H. apply import_vcf_ok in H
    as (fv & s1 & i & s2 & ids & s4 & sids & s5 & cinfo & s6 & s7
        & H1 & H2 & H4 & H5 & H6 & H7 & H8).
  exists (uuids s7). rewrite (_save_var_obj_ok E params var s7 o s' H8). f_equal.
  pose proof (saved_steps _ s (validate_vcf_not_save E params)) as T1.
  pose proof (saved_steps _ s1 (_parse_vcf_data_not_save E params)) as T2.
  pose proof (saved_steps _ (set_vcf_info i s2).2
                (_validate_assembly_ids_not_save E params)) as T4.
  pose proof (saved_steps _ s4 (_validate_sample_ids_not_save E params)) as T5.
  pose proof (saved_steps _ s5 (_construct_contig_info_not_save params)) as T6.
  pose proof (saved_steps _ s6 (_construct_variation_not_save E params cinfo)) as T7.
  rewrite H1 in T1. rewrite H2 in T2. rewrite H4 in T4. rewrite H5 in T5.
  rewrite H6 in T6. rewrite H7 in T7. simpl in *. congruence.
Qed.

Lemma import_saves_what_it_returns_witness :
  let sc := Fixture.good "VCFv4.2" in
  match import_vcf (Fixture.world sc) Fixture.params (Fixture.start sc) with
  | (Ok (o, var), s') =>
      ∃ n, saved (trace s') = [(object_name (Fixture.world sc) Fixture.params n, var)]
  | (Raise _, _) => False
  end.
Proof.
  intros sc.
  destruct (import_vcf _ _ _) as [[[o var]|e] s'] eqn:H.
  - exact (import_saves_what_it_returns _ _ _ _ _ _ H).
  - vm_compute in H. discriminate H.
Defined.

Section Fields.

Variable E : env.

Lemma set_file_ref_keeps_core file_ref : steps (keeps info_core) (set_file_ref file_ref).
Proof.
  intros s. unfold set_file_ref, keeps, info_core, mbind, M_bind, get_vcf_info, set_vcf_info.
  destruct (vcf_info s) eqn:Hi; simpl; by rewrite ?Hi.
Qed.




(** Lines 398-403 change [file_ref] only. *)
Lemma copy_to_scratch_keeps_core i :
  steps (keeps info_core)
    (if negb (Py.startswith (Info.file_ref i) (scratch E))
     then copied ← copy (Info.file_ref i)
                        (path_join (scratch E) (basename (Info.file_ref i)));
          set_file_ref copied
     else mret ()).
Proof.
  destruct (negb _); [|apply steps_ret; apply _].
  apply steps_bind; [apply _ | steps_go | intros; apply set_file_ref_keeps_core].
Qed.

Lemma gzip_keeps_core i :
  steps (keeps info_core)
    (if negb (Py.endswith (Info.file_ref i) ".gz")
     then zipped ← gzip_file E (Info.file_ref i); set_file_ref zipped
     else mret ()).
Proof.
  destruct (negb _); [|apply steps_ret; apply _].
  apply steps_bind; [apply _ | steps_go | intros; apply set_file_ref_keeps_core].
Qed.

(** Lines 398-431: where the fields of a returned record come from. *)
Lemma _construct_variation_fields params contigs_info s var s' :
  _construct_variation E params contigs_info s = (Ok var, s') →
  ∃ i, vcf_info s = Some i ∧
       Var.numvariants var = Info.total_variants i ∧
       Var.numgenotypes var = Z.of_nat (length (Info.genotype_ids i)) ∧
       Var.contigs var = contigs_info ∧
       Info.assembly_ref i = Some (Var.assemby_ref var) ∧
       params !! "sample_attribute_ref" = Some (Var.population var) ∧
       params !! "genome_ref" = Some (Var.genome_ref var) ∧
       Var.vcf_handle_ref var = hid (Var.vcf_handle var).
Proof.
  unfold _construct_variation. intros H.
  apply bind_ok_inv in H as (i0 & s0 & [Hi0 ->]%get_vcf_info_ok & H).
  apply bind_ok_inv in H as (u1 & s1 & Hb1 & H).
  apply bind_ok_inv in H as (i1 & s2 & [Hi1 ->]%get_vcf_info_ok & H).
  apply bind_ok_inv in H as (u2 & s3 & Hb2 & H).
  apply bind_ok_inv in H as (orig & s4 & [_ ->]%get_original_file_ok & H).
  apply bind_ok_inv in H as (u3 & s5 & [= _ <-] & H).
  apply bind_ok_inv in H as (fs & s6 & [= _ <-] & H).
  apply bind_ok_inv in H as (reply & s7 & [_ ->]%lift_ok & H).
  apply bind_ok_inv in H as (orig' & s8 & [_ ->]%get_original_file_ok & H).
  apply bind_ok_inv in H as (local_md5 & s9 & Hmd5 & H).
  apply bind_ok_inv in H as (u4 & s10 & (_ & _ & ->)%check_upload_ok & H).
  apply bind_ok_inv in H as (i2 & s11 & [Hi2 ->]%get_vcf_info_ok & H).
  apply bind_ok_inv in H as (pop & s12 & [Hpop ->]%getitem_ok & H).
  apply bind_ok_inv in H as (gen & s13 & [Hgen ->]%getitem_ok & H).
  apply bind_ok_inv in H as (aref & s14 & [Haref ->]%lift_ok & H).
  apply mret_ok in H as [-> ->].
  unfold md5_sum_local_file in Hmd5.
  apply bind_ok_inv in Hmd5 as (c & s15 & [_ ->]%read_file_ok & [_ ->]%mret_ok).
  cbn [vcf_info] in Hi2.
  pose proof (copy_to_scratch_keeps_core i0 s) as K1. rewrite Hb1 in K1.
  pose proof (gzip_keeps_core i1 s1) as K2. rewrite Hb2 in K2.
  unfold keeps in K1, K2. cbn [snd] in K1, K2.
  unfold info_core in K1, K2. rewrite Hi2 in K2. rewrite K1, Hi0 in K2.
  injection K2 as Hc Ht Hg Ha.
  exists i0. split; [done|]. cbn. rewrite <- Ht, <- Hg, <- Ha.
  destruct (Info.assembly_ref i2) as [r|]; [|done]. injection Haref as <-.
  done.
Qed.

End Fields.





(** ** Required parameters *)

Lemma validate_vcf_ok_keys E params s fv s' :
  validate_vcf E params s = (Ok fv, s') →
  is_Some (params !! "genome_ref") ∧ is_Some (params !! "vcf_staging_file_path").
Proof.
  unfold validate_vcf. intros H.
  apply bind_ok_inv in H as (u & s1 & H1 & H).
  apply bind_ok_inv in H as (u1 & s2 & H2 & _).
  split; apply elem_of_dom.
  - destruct (decide ("genome_ref" ∈ dom params)) as [Hg|Hg]; [done|].
    rewrite bool_decide_false in H1 by done. discriminate H1.
  - destruct (decide ("vcf_staging_file_path" ∈ dom params)) as [Hp|Hp]; [done|].
    rewrite bool_decide_false in H2 by done. discriminate H2.
Qed.

Lemma _save_var_obj_ok_key E params var s o s' :
  _save_var_obj E params var s = (Ok o, s') → is_Some (params !! "workspace_name").
Proof.
  unfold _save_var_obj. intros H.
  apply bind_ok_inv in H as ([] & s1 & _ & H).
  destruct var as [var|]; [|discriminate H].
  apply bind_ok_inv in H as (name & s2 & _ & H).
  apply bind_ok_inv in H as (ws & s3 & [Hws _]%getitem_ok & _). eauto.
Qed.

(** X17. [import_vcf] returns only for [params] that hold [genome_ref],
    [vcf_staging_file_path], [sample_attribute_ref] and [workspace_name]; with
    one of them missing it raises. *)
Theorem import_requires_parameters E params s key :
  key ∈ ["genome_ref"; "vcf_staging_file_path"; "sample_attribute_ref"; "workspace_name"] →
  params !! key = None →
  is_raise (import_vcf E params s).1 = true.
Proof.
  intros Hkey Hnone.
  destruct (import_vcf E params s) as [[[o var]|e] s'] eqn:H; [exfalso|done].
  apply import_vcf_ok in H
    as (fv & s1 & i & s2 & ids & s4 & sids & s5 & cinfo & s6 & s7
        & H1 & _ & _ & _ & _ & H7 & H8).
  apply validate_vcf_ok_keys in H1 as [[g Hg] [p Hp]].
  apply _construct_variation_fields in H7 as (_ & _ & _ & _ & _ & _ & Hpop & _).
  apply _save_var_obj_ok_key in H8 as [w Hw].
  repeat (apply elem_of_cons in Hkey as [->|Hkey]; [congruence|]).
  by apply elem_of_nil in Hkey.
Qed.

Lemma import_requires_parameters_witness :
  let sc := Fixture.good "VCFv4.2" in
  let params := delete "workspace_name" Fixture.params in
  let r := import_vcf (Fixture.world sc) params (Fixture.start sc) in
  is_raise r.1 = true ∧ r.1 = Raise (KeyError "workspace_name") ∧
  EvFileToShock "/kb/module/work/tmp/original_sample.vcf" ∈ trace r.2.
Proof.
  intros sc params r. split.
  - apply (import_requires_parameters _ _ _ "workspace_name"); compute_done.
  - vm_compute. split; [reflexivity | repeat constructor].
Defined.

(** ** Compression *)

Lemma length_append (a b : string) :
  String.length (a +:+ b) = (String.length a + String.length b)%nat.
Proof.
  induction a as [|c a IH]; [done|].
  change (String c a +:+ b) with (String c (a +:+ b)). simpl. by rewrite IH.
Qed.

Lemma append_suffix_ne (a b : string) : b ≠ "" → a ≠ a +:+ b.
Proof.
  intros Hb Heq. apply (f_equal String.length) in Heq.
  rewrite length_append in Heq. destruct b; [done|]. simpl in Heq. lia.
Qed.

(** X18. [gzip_file] on a file that exists returns its path followed by
    [.gz], writes the compressed content there and nothing else: the file
    itself and every other file are as before. When the compressed content
    starts with the two magic bytes, [is_gz_file] recognises the new file. *)
Theorem gzip_file_adds_an_archive E path s c :
  files s !! path = Some c →
  let gz := path +:+ ".gz" in
  let s' := mk_state (<[gz := gzip_compress E c]> (files s)) (trace s) (vcf_info s)
                     (original_file s) (uuids s) in
  gzip_file E path s = (Ok gz, s') ∧
  files s' !! path = Some c ∧
  (∀ q, q ≠ gz → files s' !! q = files s !! q) ∧
  (take 2 (Py.chars (gzip_compress E c)) = ["031"%char; "139"%char] →
   is_gz_file gz s' = (Ok true, s')).
Proof.
  intros Hf gz s'. split_and!.
  - unfold gzip_file. erewrite bind_ok; [|by rewrite read_file_spec, Hf]. reflexivity.
  - cbn [files s']. rewrite lookup_insert_ne; [done|]. intros Heq.
    by apply (append_suffix_ne path ".gz").
  - intros q Hq. cbn [files s']. by rewrite lookup_insert_ne.
  - intros Hmagic. rewrite is_gz_file_spec. cbn [files s'].
    rewrite lookup_insert_eq. by rewrite bool_decide_true.
Qed.

Lemma gzip_file_adds_an_archive_witness :
  let sc := Fixture.good "VCFv4.2" in
  let r := gzip_file (Fixture.world sc) Fixture.vcf_path (Fixture.start sc) in
  r.1 = Ok "/kb/module/test/sample.vcf.gz" ∧
  files r.2 !! Fixture.vcf_path = Some (Fixture.text sc) ∧
  is_gz_file "/kb/module/test/sample.vcf.gz" r.2 = (Ok true, r.2).
Proof.
  intros sc r.
  destruct (gzip_file_adds_an_archive (Fixture.world sc) Fixture.vcf_path
              (Fixture.start sc) (Fixture.text sc) eq_refl) as (Hr & Hsrc & _ & Hgz).
  subst r. rewrite Hr. split_and!; [reflexivity | exact Hsrc | apply Hgz; reflexivity].
Defined.

(** The same for a missing file: the [OSError] of [open], and nothing
    written. *)
Lemma gzip_file_missing E path s :
  files s !! path = None →
  gzip_file E path s = (Raise (OSError "No such file or directory"), s).
Proof.
  intros Hf. unfold gzip_file. apply bind_raise. by rewrite read_file_spec, Hf.
Qed.

(** X19. A compressed test fixture ([/kb/module/test/....gz]) is
    decompressed next to itself, to the path without [.gz]; that file is what
    [_stage_input] returns and what it copies to [original_<name>] under the
    scratch area, so [self.original_file] holds the decompressed text. *)
Theorem staging_test_archive E params s p gz data :
  params !! "vcf_staging_file_path" = Some p →
  Py.startswith p "/kb/module/test/" = true →
  Py.endswith p ".gz" = true →
  files s !! p = Some gz →
  gunzip E gz = Ok data →
  let out := Py.slice_but_last 3 p in
  take 2 (Py.chars data) ≠ ["031"%char; "139"%char] →
  out ≠ original_path E out →
  _stage_input E params s
  = (Ok out,
     mk_state (<[original_path E out := data]> (<[out := data]> (files s)))
       (trace s ++ [EvPrint [Str ("VCF: " +:+ out +:+ " Orig: " +:+ original_path E out)]])
       (vcf_info s) (Some (original_path E out)) (uuids s)).
Proof.
  intros Hp Ht Hz Hf Hgun out Hgz Hne. unfold _stage_input.
  erewrite bind_ok; [|unfold getitem, lift; rewrite Hp; reflexivity].
  rewrite Ht, Hz.
  rewrite (bind_ok _ _ s out
             (mk_state (<[out := data]> (files s)) (trace s) (vcf_info s)
                       (original_file s) (uuids s))).
  2: { erewrite bind_ok; [|by rewrite read_file_spec, Hf].
       erewrite bind_ok; [|reflexivity].
       rewrite Hgun. erewrite bind_ok; [|reflexivity].
       erewrite bind_ok; [|reflexivity].
       unfold mret, M_ret. cbn [files trace vcf_info original_file uuids].
       by rewrite insert_insert_eq. }
  erewrite bind_ok; [|apply exists_spec]. cbn [files].
  rewrite lookup_insert_eq. rewrite bool_decide_true by eauto. cbn [negb].
  fold (original_path E out).
  erewrite bind_ok; [|reflexivity].
  erewrite bind_ok.
  2: { unfold copy. erewrite bind_ok;
         [|rewrite read_file_spec; cbn [files]; rewrite lookup_insert_eq; reflexivity].
       rewrite bool_decide_false by done. reflexivity. }
  erewrite bind_ok; [|reflexivity].
  erewrite bind_ok.
  2: { rewrite is_gz_file_spec. cbn [files].
       rewrite lookup_insert_ne by (intros Heq; by apply Hne).
       rewrite lookup_insert_eq. reflexivity. }
  by rewrite bool_decide_false.
Qed.

Lemma staging_test_archive_witness :
  let E := with_gunzip (Fixture.world (Fixture.good "VCFv4.2")) in
  let s := mk_state {[ "/kb/module/test/sample.vcf.gz" := String "031" (String "139" "abc") ]}
             [] None None 0 in
  let r := _stage_input E {[ "vcf_staging_file_path" := "/kb/module/test/sample.vcf.gz" ]} s in
  r.1 = Ok "/kb/module/test/sample.vcf" ∧
  files r.2 !! "/kb/module/test/sample.vcf" = Some "abc" ∧
  files r.2 !! "/kb/module/work/tmp/original_sample.vcf" = Some "abc".
Proof.
  intros E s r. subst r.
  rewrite (staging_test_archive E _ s "/kb/module/test/sample.vcf.gz"
             (String "031" (String "139" "abc")) "abc");
    [|reflexivity | reflexivity | reflexivity | reflexivity | reflexivity
     | compute_done | compute_done].
  split_and!; vm_compute; reflexivity.
Defined.
